(** * MegaD platform (src/module.ts): a shallow embedding and its properties

    The module bridges an MQTT channel and the on/off lights of a host
    framework.  The embedding follows the TypeScript source method by
    method:

    - JavaScript strings are sequences of UTF-16 code units ([jsstring]);
      [split], [trim] and [parseInt] follow ECMAScript.
    - The numbers of the module (device ids, the states 0 and 1) are
      integral and are kept as mathematical integers ([Z]).  A JavaScript
      Number is a double: up to Number.MAX_SAFE_INTEGER it is the integer
      itself and interpolates to its decimal digits, beyond it [parseInt]
      rounds.  Statements about an id taken by itself therefore carry the
      bound [safe_integer].
    - The platform object and its collaborators (logger, MQTT library,
      framework base class and registry) are modelled by explicit state
      passing: a computation maps a [Platform] to its result, the next
      [Platform], and the list of calls on collaborators ([Event]) the
      module made, in order.  What the collaborators decide on their own is
      a member of the record [Matterbridge] and left open: the unique id and
      the cluster servers of an endpoint, the version check, whether
      [mqtt.connect] throws on a broker URL, whether the framework takes a
      device into its registry, whether its own onShutdown empties the
      registry.  The other collaborator calls are taken to return normally.
      The module itself throws in the constructor only; an error of
      [mqtt.connect] passes through [initializeMqtt] and [onStart], which
      have no handler for it. *)

From Stdlib Require Import List ZArith NArith Bool Ascii String Lia.
From Stdlib Require Import DecimalString DecimalZ DecimalFacts DecimalPos.
Import ListNotations.

Local Open Scope Z_scope.

(** ** JavaScript strings *)

Module JS.

(** A string is its sequence of UTF-16 code units. *)
Definition jsstring := list N.

(** An ASCII literal as a JavaScript string. *)
Definition js (s : string) : jsstring :=
  map N_of_ascii (list_ascii_of_string s).

(** The code unit of an ASCII character. *)
Definition ch (a : ascii) : N := N_of_ascii a.

(** The double-quote character, U+0022. *)
Definition dquote : jsstring := [34%N].

(** [a === b] on strings. *)
Fixpoint streq (a b : jsstring) : bool :=
  match a, b with
  | [], [] => true
  | x :: a', y :: b' => N.eqb x y && streq a' b'
  | _, _ => false
  end.

(** ECMAScript WhiteSpace and LineTerminator code units, the ones
    [String.prototype.trim] and [parseInt] strip. *)
Definition isWhiteSpace (c : N) : bool :=
  ((9 <=? c) && (c <=? 13)        (* TAB LF VT FF CR *)
   || (c =? 32)                    (* SP *)
   || (c =? 160)                   (* NBSP *)
   || (c =? 5760)                  (* U+1680 *)
   || ((8192 <=? c) && (c <=? 8202))  (* U+2000 .. U+200A *)
   || (c =? 8232) || (c =? 8233)   (* LS PS *)
   || (c =? 8239)                  (* U+202F *)
   || (c =? 8287)                  (* U+205F *)
   || (c =? 12288)                 (* U+3000 *)
   || (c =? 65279))%N.             (* U+FEFF *)

Fixpoint trimStart (s : jsstring) : jsstring :=
  match s with
  | c :: r => if isWhiteSpace c then trimStart r else s
  | [] => []
  end.

Definition trimEnd (s : jsstring) : jsstring := rev (trimStart (rev s)).

(** [s.trim()] *)
Definition trim (s : jsstring) : jsstring := trimEnd (trimStart s).

(** [s.split(sep)] for a separator of one code unit: the segments between
    the occurrences of [sep]; never the empty array. *)
Fixpoint split (sep : N) (s : jsstring) : list jsstring :=
  match s with
  | [] => [[]]
  | c :: r =>
      if N.eqb c sep then [] :: split sep r
      else match split sep r with
           | seg :: segs => (c :: seg) :: segs
           | [] => [[c]]
           end
  end.

(** The value of a code unit as a digit: 0-9, then a-z / A-Z for 10-35. *)
Definition digitValue (c : N) : option Z :=
  if ((48 <=? c) && (c <=? 57))%N then Some (Z.of_N c - 48)
  else if ((97 <=? c) && (c <=? 122))%N then Some (Z.of_N c - 87)
  else if ((65 <=? c) && (c <=? 90))%N then Some (Z.of_N c - 55)
  else None.

Definition radixDigit (R : Z) (c : N) : option Z :=
  match digitValue c with
  | Some d => if d <? R then Some d else None
  | None => None
  end.

(** The longest prefix of radix-[R] digits, as digit values. *)
Fixpoint leadingDigits (R : Z) (s : jsstring) : list Z :=
  match s with
  | [] => []
  | c :: r =>
      match radixDigit R c with
      | Some d => d :: leadingDigits R r
      | None => []
      end
  end.

Definition mathInt (R : Z) (ds : list Z) : Z :=
  fold_left (fun acc d => acc * R + d) ds 0.

(** [parseInt(s)] with no radix argument (ECMAScript 19.2.5): leading white
    space is skipped, a sign is read, a [0x]/[0X] prefix selects radix 16,
    and the longest digit prefix is the value; whatever follows the digits
    is ignored.  [None] is NaN.  Negative zero is identified with zero. *)
Definition parseInt (s : jsstring) : option Z :=
  let s1 := trimStart s in
  let sign := match s1 with
              | c :: _ => if N.eqb c (ch "-") then -1 else 1
              | [] => 1
              end in
  let s2 := match s1 with
            | c :: r => if N.eqb c (ch "+") || N.eqb c (ch "-") then r else s1
            | [] => s1
            end in
  let '(R, s3) := match s2 with
                  | c0 :: c1 :: r =>
                      if N.eqb c0 (ch "0") && (N.eqb c1 (ch "x") || N.eqb c1 (ch "X"))
                      then (16, r) else (10, s2)
                  | _ => (10, s2)
                  end in
  match leadingDigits R s3 with
  | [] => None
  | ds => Some (sign * mathInt R ds)
  end.

(** Number.MAX_SAFE_INTEGER, 2^53 - 1: integers up to it are doubles. *)
Definition MAX_SAFE_INTEGER : Z := 9007199254740991.

Definition safe_integer (z : Z) : Prop := Z.abs z <= MAX_SAFE_INTEGER.

(** Interpolation of an integral Number into a template literal,
    [`${n}`]: its decimal digits, with a minus sign when negative. *)
Definition Number_toString (z : Z) : jsstring :=
  js (NilZero.string_of_int (Z.to_int z)).

End JS.

Import JS.

(** ** Configuration, devices and collaborators *)

(** One entry of [config.devices].  An id is an integer, as the data model
    of the specification has it (the source types it as a number). *)
Record DeviceConfig := {
  id : Z;
  name : jsstring;
  room : option jsstring
}.

(** [config.mqtt]; a field that is absent is [None]. *)
Record MqttSettings := {
  broker : option jsstring;
  username : option jsstring;
  password : option jsstring
}.

(** interface MegaDConfig, as a value at run time: any member may be
    absent. *)
Record MegaDConfig := {
  mqtt : option MqttSettings;
  devices : option (list DeviceConfig);
  unregisterOnShutdown : option bool
}.

(** Truthiness of an optional string: absent and empty are falsy. *)
Definition truthy (s : option jsstring) : bool :=
  match s with
  | Some (_ :: _) => true
  | _ => false
  end.

(** [cfg.mqtt?.broker], [cfg.mqtt?.username], [cfg.mqtt?.password] *)
Definition mqtt_broker (cfg : MegaDConfig) : option jsstring :=
  match mqtt cfg with Some m => broker m | None => None end.
Definition mqtt_username (cfg : MegaDConfig) : option jsstring :=
  match mqtt cfg with Some m => username m | None => None end.
Definition mqtt_password (cfg : MegaDConfig) : option jsstring :=
  match mqtt cfg with Some m => password m | None => None end.

(** The string an optional string interpolates to where the code has
    already tested it truthy. *)
Definition str (s : option jsstring) : jsstring :=
  match s with Some v => v | None => js "undefined" end.

(** A member of the framework base class that the constructor inspects
    before calling it. *)
Inductive Member :=
| Undefined
| NotAFunction
| Method (f : jsstring -> bool).

(** The two closures [createMegaDLight] attaches to an endpoint, with the
    variables they capture. *)
Inductive CommandHandler :=
| TurnOn (deviceId : Z) (deviceName : jsstring)
| TurnOff (deviceId : Z) (deviceName : jsstring).

(** A MatterbridgeEndpoint as this module sees it: what it passes when it
    builds one, and what it reads back ([uniqueId], [hasClusterServer]). *)
Record Endpoint := {
  uniqueStorageKey : jsstring;
  deviceName : jsstring;
  serialNumber : jsstring;
  vendorId : Z;
  vendorName : jsstring;
  productName : jsstring;
  softwareVersion : Z;
  softwareVersionString : jsstring;
  uniqueId : jsstring;
  clusterServers : list jsstring;
  commandHandlers : list (jsstring * CommandHandler)
}.

Definition defaultBroker : jsstring := js "mqtt://localhost:1883".

(** The host: the framework and the MQTT library, as far as the module
    depends on what they decide.  [createUniqueId] is the id the framework
    gives an endpoint built from a storage key, device name, serial number,
    vendor name and product name; [onOffLightClusterServers] the cluster
    servers of an onOffLight endpoint after [addRequiredClusterServers].
    [connectError url] is the error [mqtt.connect] throws on the broker URL
    [url], [None] when it returns a client; the well-formed default URL is
    accepted ([connect_default]).  [acceptsDevice registry device] tells
    whether [registerDevice] takes [device] into a registry that holds
    [registry] (the framework may refuse one, for instance a name it has
    already); [shutdownClearsRegistry] whether the framework's own
    onShutdown empties the registry.  All of these are left open. *)
Record Matterbridge := {
  matterbridgeVersion : jsstring;
  aggregatorVendorId : Z;
  verifyMatterbridgeVersion : Member;
  createUniqueId : jsstring -> jsstring -> jsstring -> jsstring -> jsstring -> jsstring;
  onOffLightClusterServers : list jsstring;
  connectError : jsstring -> option jsstring;
  connect_default : connectError defaultBroker = None;
  acceptsDevice : list Endpoint -> Endpoint -> bool;
  shutdownClearsRegistry : bool
}.

(** An MQTT client object: the n-th one the platform got from
    [mqtt.connect]. *)
Definition Client := nat.

(** mqtt.IClientOptions, the two members the module sets. *)
Record ClientOptions := {
  options_username : option jsstring;
  options_password : option jsstring
}.

Inductive LogLevel := Info | Warn | Error.

(** Calls on collaborators.  [MqttConnect c url options] is the call
    [mqtt.connect(url, options)]; [c] is the client it returns, when it
    returns. *)
Inductive Event :=
| Log (level : LogLevel) (message : jsstring)
| AwaitReady
| ClearSelect
| MqttConnect (c : Client) (brokerUrl : jsstring) (options : ClientOptions)
| MqttOn (c : Client) (event : jsstring)
| MqttSubscribe (c : Client) (topic : jsstring)
| MqttPublish (c : Client) (topic message : jsstring)
| MqttEndAsync (c : Client)
| RegisterDevice (device : Endpoint)
| SetAttribute (device : Endpoint) (cluster attribute : jsstring) (value : bool)
| SuperOnConfigure
| SuperOnShutdown (reason : option jsstring)
| UnregisterAllDevices.

(** The platform instance with the part of the world it acts on:
    its two private fields, the framework's [config] and [matterbridge],
    the framework's registry ([getDevices()]) and the number of MQTT
    clients created so far. *)
Record Platform := {
  mqttClient : option Client;
  megaDConfig : MegaDConfig;
  config : MegaDConfig;
  matterbridge : Matterbridge;
  registered : list Endpoint;
  clients : nat
}.

(** ** Computations *)

Inductive Result (A : Type) :=
| Ok (a : A)
| Throw (error : jsstring).
Arguments Ok {A} a.
Arguments Throw {A} error.

Definition M (A : Type) : Type := Platform -> Result A * Platform * list Event.

Definition ret {A} (a : A) : M A := fun p => (Ok a, p, []).

Definition bind {A B} (m : M A) (k : A -> M B) : M B :=
  fun p =>
    match m p with
    | (Ok a, p1, ev1) =>
        match k a p1 with
        | (r, p2, ev2) => (r, p2, ev1 ++ ev2)
        end
    | (Throw e, p1, ev1) => (Throw e, p1, ev1)
    end.

Declare Scope m_scope.
Delimit Scope m_scope with M.
Notation "x <- m ;; k" := (bind m (fun x => k))
  (at level 61, m at next level, right associativity) : m_scope.
Notation "m ;; k" := (bind m (fun _ => k))
  (at level 61, right associativity) : m_scope.
Local Open Scope m_scope.

Definition emit (e : Event) : M unit := fun p => (Ok tt, p, [e]).

Definition read {A} (f : Platform -> A) : M A := fun p => (Ok (f p), p, []).

(** [for (const x of l) { await body(x) }] *)
Fixpoint forOf {A} (l : list A) (body : A -> M unit) : M unit :=
  match l with
  | [] => ret tt
  | x :: r => body x ;; forOf r body
  end.

(** The result, final state and events of a computation. *)
Definition result {A} (o : Result A * Platform * list Event) : Result A := fst (fst o).
Definition final {A} (o : Result A * Platform * list Event) : Platform := snd (fst o).
Definition events {A} (o : Result A * Platform * list Event) : list Event := snd o.

(** [this.log.info], [this.log.warn], [this.log.error] *)
Definition log_info (msg : jsstring) : M unit := emit (Log Info msg).
Definition log_warn (msg : jsstring) : M unit := emit (Log Warn msg).
Definition log_error (msg : jsstring) : M unit := emit (Log Error msg).

(** Field updates of the platform. *)
Definition with_mqttClient (p : Platform) (c : option Client) : Platform :=
  {| mqttClient := c; megaDConfig := megaDConfig p; config := config p;
     matterbridge := matterbridge p; registered := registered p; clients := clients p |}.

Definition with_registered (p : Platform) (ds : list Endpoint) : Platform :=
  {| mqttClient := mqttClient p; megaDConfig := megaDConfig p; config := config p;
     matterbridge := matterbridge p; registered := ds; clients := clients p |}.

Definition with_clients (p : Platform) (n : nat) : Platform :=
  {| mqttClient := mqttClient p; megaDConfig := megaDConfig p; config := config p;
     matterbridge := matterbridge p; registered := registered p; clients := n |}.

(** [this.mqttClient = c] *)
Definition set_mqttClient (c : option Client) : M unit :=
  fun p => (Ok tt, with_mqttClient p c, []).

(** [mqtt.connect(url, options)]: a new client object, or the error the
    library throws on the URL. *)
Definition mqtt_connect (url : jsstring) (options : ClientOptions) : M Client :=
  fun p =>
    match connectError (matterbridge p) url with
    | Some error => (Throw error, p, [MqttConnect (clients p) url options])
    | None => (Ok (clients p), with_clients p (S (clients p)),
               [MqttConnect (clients p) url options])
    end.

(** [this.getDevices()] *)
Definition getDevices : M (list Endpoint) := read registered.

(** [this.registerDevice(device)]: the framework adds the device to its
    registry, unless it refuses it. *)
Definition registerDevice (device : Endpoint) : M unit :=
  fun p => (Ok tt,
            with_registered p
              (if acceptsDevice (matterbridge p) (registered p) device
               then registered p ++ [device]
               else registered p),
            [RegisterDevice device]).

(** [super.onShutdown(reason)]: the framework's own shutdown, which may
    empty the registry. *)
Definition superOnShutdown (reason : option jsstring) : M unit :=
  fun p => (Ok tt,
            with_registered p
              (if shutdownClearsRegistry (matterbridge p) then [] else registered p),
            [SuperOnShutdown reason]).

(** [this.unregisterAllDevices()]: the framework empties its registry. *)
Definition unregisterAllDevices : M unit :=
  fun p => (Ok tt, with_registered p [], [UnregisterAllDevices]).

(** [device.hasClusterServer(cluster)] *)
Definition hasClusterServer (device : Endpoint) (cluster : jsstring) : bool :=
  existsb (streq cluster) (clusterServers device).

(** ** The module *)

Definition defaultDevices : list DeviceConfig :=
  [ {| id := 11; name := js "Bedroom Light"; room := Some (js "Bedroom") |} ].

(** The condition of the constructor's version guard (line 128). *)
Definition versionGuard (mb : Matterbridge) : bool :=
  match verifyMatterbridgeVersion mb with
  | Undefined => true
  | NotAFunction => true
  | Method f => negb (f (js "3.0.7"))
  end.

Definition versionError (mb : Matterbridge) : jsstring :=
  js "This plugin requires Matterbridge version >= " ++ dquote ++ js "3.0.7" ++ dquote
  ++ js ". Please update Matterbridge from " ++ matterbridgeVersion mb
  ++ js " to the latest version in the frontend." ++ dquote.

(** [new MegaDPlatform(matterbridge, log, config)] (lines 106-137): the
    instance, or the error thrown, with the lines logged. *)
Definition MegaDPlatform_new (mb : Matterbridge) (cfg : MegaDConfig)
  : Result Platform * list Event :=
  let megaDConfig :=
    {| mqtt := Some {| broker := Some (if truthy (mqtt_broker cfg)
                                       then str (mqtt_broker cfg)
                                       else defaultBroker);
                       username := mqtt_username cfg;
                       password := mqtt_password cfg |};
       devices := Some (match devices cfg with
                        | Some ds => ds
                        | None => defaultDevices
                        end);
       unregisterOnShutdown := unregisterOnShutdown cfg |} in
  if versionGuard mb then (Throw (versionError mb), [])
  else
    (Ok {| mqttClient := None; megaDConfig := megaDConfig; config := cfg;
           matterbridge := mb; registered := []; clients := 0 |},
     [ Log Info (js "Initializing MegaD Platform...");
       Log Info (js "MQTT Broker: " ++ str (mqtt_broker megaDConfig));
       Log Info (js "Configured devices: "
                 ++ Number_toString
                      (Z.of_nat (List.length (match devices megaDConfig with
                                         | Some ds => ds
                                         | None => []
                                         end)))) ]).

(** sendMqttCommand (lines 265-276) *)
Definition sendMqttCommand (deviceId : Z) (state : Z) : M unit :=
  client <- read mqttClient ;;
  match client with
  | None => log_error (js "MQTT client not connected")
  | Some c =>
      let commandTopic := js "alex/cmd" in
      let command := Number_toString deviceId ++ js ":" ++ Number_toString state in
      log_info (js "Publishing to " ++ commandTopic ++ js ": " ++ command) ;;
      emit (MqttPublish c commandTopic command)
  end.

(** The bodies of the 'on' and 'off' command handlers (lines 252-259). *)
Definition executeCommandHandler (h : CommandHandler) : M unit :=
  match h with
  | TurnOn deviceId deviceName =>
      log_info (js "Turning ON device " ++ Number_toString deviceId
                ++ js " (" ++ deviceName ++ js ")") ;;
      sendMqttCommand deviceId 1
  | TurnOff deviceId deviceName =>
      log_info (js "Turning OFF device " ++ Number_toString deviceId
                ++ js " (" ++ deviceName ++ js ")") ;;
      sendMqttCommand deviceId 0
  end.

(** The endpoint [createMegaDLight] builds (lines 240-259). *)
Definition megaDLight (mb : Matterbridge) (deviceId : Z) (deviceName : jsstring) : Endpoint :=
  {| uniqueStorageKey := js "megad_" ++ Number_toString deviceId;
     deviceName := deviceName;
     serialNumber := js "MEGAD" ++ Number_toString deviceId;
     vendorId := aggregatorVendorId mb;
     vendorName := js "MegaD";
     productName := js "MegaD Light " ++ Number_toString deviceId;
     softwareVersion := deviceId;
     softwareVersionString := js "1.0.0";
     uniqueId := createUniqueId mb (js "megad_" ++ Number_toString deviceId) deviceName
                   (js "MEGAD" ++ Number_toString deviceId) (js "MegaD")
                   (js "MegaD Light " ++ Number_toString deviceId);
     clusterServers := onOffLightClusterServers mb;
     commandHandlers := [ (js "on", TurnOn deviceId deviceName);
                          (js "off", TurnOff deviceId deviceName) ] |}.

(** createMegaDLight (lines 239-263) *)
Definition createMegaDLight (deviceId : Z) (deviceName : jsstring) : M unit :=
  mb <- read matterbridge ;;
  let light := megaDLight mb deviceId deviceName in
  registerDevice light ;;
  log_info (js "Registered MegaD light: " ++ deviceName
            ++ js " (ID: " ++ Number_toString deviceId ++ js ")").

(** createDevices (lines 224-237) *)
Definition createDevices : M unit :=
  cfg <- read megaDConfig ;;
  match devices cfg with
  | None | Some [] =>
      log_info (js "No devices configured, creating default bedroom light with ID 11") ;;
      createMegaDLight 11 (js "Bedroom Light")
  | Some ds =>
      forOf ds (fun deviceConfig =>
        log_info (js "Creating configured device: " ++ name deviceConfig
                  ++ js " (ID: " ++ Number_toString (id deviceConfig) ++ js ")") ;;
        createMegaDLight (id deviceConfig) (name deviceConfig))
  end.

(** updateDeviceState (lines 291-306) *)
Definition updateDeviceState (deviceId : Z) (state : jsstring) : M unit :=
  ds <- getDevices ;;
  match find (fun d => streq (uniqueId d) (js "megad_" ++ Number_toString deviceId)) ds with
  | None =>
      log_warn (js "Device with ID " ++ Number_toString deviceId ++ js " not found")
  | Some device =>
      let isOn := streq (trim state) (js "1") in
      log_info (js "Updating device " ++ Number_toString deviceId ++ js " state to: "
                ++ (if isOn then js "ON" else js "OFF")) ;;
      if hasClusterServer device (js "onOff")
      then emit (SetAttribute device (js "onOff") (js "onOff") isOn)
      else ret tt
  end.

(** handleMqttMessage (lines 278-289) *)
Definition handleMqttMessage (topic message : jsstring) : M unit :=
  log_info (js "MQTT message received - Topic: " ++ topic
            ++ js ", Message: " ++ message) ;;
  let topicParts := split (ch "/") topic in
  if (List.length topicParts =? 2)%nat && streq (nth 0 topicParts []) (js "alex") then
    match parseInt (nth 1 topicParts []) with
    | Some deviceId => updateDeviceState deviceId message
    | None => ret tt
    end
  else ret tt.

(** The 'connect' listener (lines 202-213). *)
Definition onConnect : M unit :=
  log_info (js "Connected to MQTT broker") ;;
  cfg <- read megaDConfig ;;
  match devices cfg with
  | Some ds =>
      forOf ds (fun deviceConfig =>
        let stateTopic := js "alex/" ++ Number_toString (id deviceConfig) in
        client <- read mqttClient ;;
        match client with
        | Some c => emit (MqttSubscribe c stateTopic)
        | None => ret tt
        end ;;
        log_info (js "Subscribed to " ++ stateTopic))
  | None => ret tt
  end.

(** The 'error' listener (lines 215-217). *)
Definition onError (message : jsstring) : M unit :=
  log_error (js "MQTT error: " ++ message).

(** The 'message' listener (lines 219-221). *)
Definition onMessage (topic message : jsstring) : M unit :=
  handleMqttMessage topic message.

(** initializeMqtt (lines 186-222) *)
Definition initializeMqtt : M unit :=
  cfg <- read megaDConfig ;;
  if negb (truthy (mqtt_broker cfg)) then
    log_warn (js "MQTT broker not configured - devices will be created but MQTT functionality will be disabled")
  else
    log_info (js "Connecting to MQTT broker: " ++ str (mqtt_broker cfg)) ;;
    let options :=
      if truthy (mqtt_username cfg)
      then {| options_username := mqtt_username cfg; options_password := mqtt_password cfg |}
      else {| options_username := None; options_password := None |} in
    c <- mqtt_connect (str (mqtt_broker cfg)) options ;;
    set_mqttClient (Some c) ;;
    emit (MqttOn c (js "connect")) ;;
    emit (MqttOn c (js "error")) ;;
    emit (MqttOn c (js "message")).

(** [reason ?? 'none'] *)
Definition reasonOrNone (reason : option jsstring) : jsstring :=
  match reason with Some r => r | None => js "none" end.

(** onStart (lines 139-153) *)
Definition onStart (reason : option jsstring) : M unit :=
  log_info (js "onStart called with reason: " ++ reasonOrNone reason) ;;
  emit AwaitReady ;;
  emit ClearSelect ;;
  initializeMqtt ;;
  createDevices.

(** onConfigure (lines 155-165) *)
Definition onConfigure : M unit :=
  emit SuperOnConfigure ;;
  log_info (js "onConfigure called") ;;
  ds <- getDevices ;;
  forOf ds (fun device => log_info (js "Configuring device: " ++ uniqueId device)).

(** onShutdown (lines 171-184) *)
Definition onShutdown (reason : option jsstring) : M unit :=
  client <- read mqttClient ;;
  match client with
  | Some c =>
      log_info (js "Disconnecting MQTT client...") ;;
      emit (MqttEndAsync c) ;;
      set_mqttClient None
  | None => ret tt
  end ;;
  superOnShutdown reason ;;
  log_info (js "onShutdown called with reason: " ++ reasonOrNone reason) ;;
  cfg <- read config ;;
  match unregisterOnShutdown cfg with
  | Some true => unregisterAllDevices
  | _ => ret tt
  end.

(** ** The codec, in the vocabulary of the specification

    The module has no codec function of its own: the topic is decoded in
    [handleMqttMessage] and the payload in [updateDeviceState].  The two
    definitions below name those two halves; [handleMqttMessage_decodeInbound]
    and [updateDeviceState_applyState] relate them to the methods. *)

(** The line [handleMqttMessage] logs first. *)
Definition received (topic message : jsstring) : Event :=
  Log Info (js "MQTT message received - Topic: " ++ topic ++ js ", Message: " ++ message).

(** The topic test of lines 282-285 with the payload test of line 299. *)
Definition decodeInbound (topic payload : jsstring) : option (Z * bool) :=
  let topicParts := split (ch "/") topic in
  if (List.length topicParts =? 2)%nat && streq (nth 0 topicParts []) (js "alex") then
    match parseInt (nth 1 topicParts []) with
    | Some deviceId => Some (deviceId, streq (trim payload) (js "1"))
    | None => None
    end
  else None.

(** Lines 292-305 of [updateDeviceState], as a function of the decoded
    state. *)
Definition applyState (deviceId : Z) (isOn : bool) : M unit :=
  ds <- getDevices ;;
  match find (fun d => streq (uniqueId d) (js "megad_" ++ Number_toString deviceId)) ds with
  | None =>
      log_warn (js "Device with ID " ++ Number_toString deviceId ++ js " not found")
  | Some device =>
      log_info (js "Updating device " ++ Number_toString deviceId ++ js " state to: "
                ++ (if isOn then js "ON" else js "OFF")) ;;
      if hasClusterServer device (js "onOff")
      then emit (SetAttribute device (js "onOff") (js "onOff") isOn)
      else ret tt
  end.

(** A segment that is an integer in the plain sense: decimal digits only,
    after an optional minus sign. *)
Definition isDecimalDigit (c : N) : bool := ((48 <=? c) && (c <=? 57))%N.

Definition integerSegment (s : jsstring) : bool :=
  match s with
  | [] => false
  | c :: r =>
      if N.eqb c (ch "-")
      then match r with [] => false | _ => forallb isDecimalDigit r end
      else forallb isDecimalDigit s
  end.

(** ** Reading a list of events *)

(** The lines logged, with their levels. *)
Definition logged (evs : list Event) : list (LogLevel * jsstring) :=
  flat_map (fun e => match e with Log l m => [(l, m)] | _ => [] end) evs.

(** The calls other than logging. *)
Definition calls (evs : list Event) : list Event :=
  filter (fun e => match e with Log _ _ => false | _ => true end) evs.

(** The calls on the MQTT library and its clients. *)
Definition mqttCalls (evs : list Event) : list Event :=
  filter (fun e => match e with
                   | MqttConnect _ _ _ | MqttOn _ _ | MqttSubscribe _ _
                   | MqttPublish _ _ _ | MqttEndAsync _ => true
                   | _ => false
                   end) evs.

(** The messages published, as (topic, payload). *)
Definition published (evs : list Event) : list (jsstring * jsstring) :=
  flat_map (fun e => match e with MqttPublish _ t m => [(t, m)] | _ => [] end) evs.

(** The clients whose session was ended. *)
Definition ended (evs : list Event) : list Client :=
  flat_map (fun e => match e with MqttEndAsync c => [c] | _ => [] end) evs.

(** The endpoints handed to [registerDevice]. *)
Definition registeredBy (evs : list Event) : list Endpoint :=
  flat_map (fun e => match e with RegisterDevice d => [d] | _ => [] end) evs.

(** The attribute writes. *)
Definition written (evs : list Event) : list Event :=
  filter (fun e => match e with SetAttribute _ _ _ _ => true | _ => false end) evs.

(** A configuration with its [devices] member replaced. *)
Definition withDevices (cfg : MegaDConfig) (ds : option (list DeviceConfig)) : MegaDConfig :=
  {| mqtt := mqtt cfg; devices := ds; unregisterOnShutdown := unregisterOnShutdown cfg |}.

(** The device the registry lookup of [updateDeviceState] returns. *)
Definition findDevice (deviceId : Z) (p : Platform) : option Endpoint :=
  find (fun d => streq (uniqueId d) (js "megad_" ++ Number_toString deviceId)) (registered p).

(** The registry after [registerDevice] on each of a list of devices. *)
Definition registerAll (mb : Matterbridge) (registry devs : list Endpoint) : list Endpoint :=
  fold_left (fun r e => if acceptsDevice mb r e then r ++ [e] else r) devs registry.

(** The endpoints [createDevices] builds on a platform. *)
Definition lightsToCreate (p : Platform) : list Endpoint :=
  match devices (megaDConfig p) with
  | None | Some [] => [megaDLight (matterbridge p) 11 (js "Bedroom Light")]
  | Some ds => map (fun d => megaDLight (matterbridge p) (id d) (name d)) ds
  end.

(** The events of building and registering one light. *)
Definition lightEvents (mb : Matterbridge) (deviceId : Z) (deviceName : jsstring) : list Event :=
  [ RegisterDevice (megaDLight mb deviceId deviceName);
    Log Info (js "Registered MegaD light: " ++ deviceName
              ++ js " (ID: " ++ Number_toString deviceId ++ js ")") ].

(** The events of [createDevices] on a platform. *)
Definition createDevicesEvents (p : Platform) : list Event :=
  match devices (megaDConfig p) with
  | None | Some [] =>
      Log Info (js "No devices configured, creating default bedroom light with ID 11")
      :: lightEvents (matterbridge p) 11 (js "Bedroom Light")
  | Some ds =>
      flat_map (fun d =>
                  Log Info (js "Creating configured device: " ++ name d
                            ++ js " (ID: " ++ Number_toString (id d) ++ js ")")
                  :: lightEvents (matterbridge p) (id d) (name d)) ds
  end.

(** The options [initializeMqtt] passes to [mqtt.connect]. *)
Definition connectOptions (cfg : MegaDConfig) : ClientOptions :=
  if truthy (mqtt_username cfg)
  then {| options_username := mqtt_username cfg; options_password := mqtt_password cfg |}
  else {| options_username := None; options_password := None |}.

(** The lines logged at one level. *)
Definition loggedAt (level : LogLevel) (evs : list Event) : list jsstring :=
  flat_map (fun e => match e, level with
                     | Log Info m, Info | Log Warn m, Warn | Log Error m, Error => [m]
                     | _, _ => []
                     end) evs.

(** ** Sample hosts, configurations and platforms *)

Module Sample.

(** A host of the required version whose endpoints are identified by
    their storage key; it connects to every URL, takes every device and
    keeps its registry at shutdown. *)
Definition host : Matterbridge :=
  {| matterbridgeVersion := js "3.0.7";
     aggregatorVendorId := 65521;
     verifyMatterbridgeVersion := Method (fun _ => true);
     createUniqueId := fun key _ _ _ _ => key;
     onOffLightClusterServers := [js "identify"; js "groups"; js "onOff"];
     connectError := fun _ => None;
     connect_default := eq_refl;
     acceptsDevice := fun _ _ => true;
     shutdownClearsRegistry := false |}.

(** The same framework at an older version. *)
Definition oldHost : Matterbridge :=
  {| matterbridgeVersion := js "2.0.0";
     aggregatorVendorId := 65521;
     verifyMatterbridgeVersion := Method (fun _ => false);
     createUniqueId := fun key _ _ _ _ => key;
     onOffLightClusterServers := [js "identify"; js "groups"; js "onOff"];
     connectError := fun _ => None;
     connect_default := eq_refl;
     acceptsDevice := fun _ _ => true;
     shutdownClearsRegistry := false |}.

(** A framework whose light endpoints serve no onOff cluster. *)
Definition hostWithoutOnOff : Matterbridge :=
  {| matterbridgeVersion := js "3.0.7";
     aggregatorVendorId := 65521;
     verifyMatterbridgeVersion := Method (fun _ => true);
     createUniqueId := fun key _ _ _ _ => key;
     onOffLightClusterServers := [js "identify"; js "groups"];
     connectError := fun _ => None;
     connect_default := eq_refl;
     acceptsDevice := fun _ _ => true;
     shutdownClearsRegistry := false |}.

(** The configuration of the test suite: one light, a broker. *)
Definition testConfig : MegaDConfig :=
  {| mqtt := Some {| broker := Some (js "mqtt://localhost:1883");
                     username := None; password := None |};
     devices := Some [ {| id := 11; name := js "Test Light"; room := Some (js "Test Room") |} ];
     unregisterOnShutdown := Some false |}.

(** No [mqtt.broker]. *)
Definition configNoBroker : MegaDConfig :=
  {| mqtt := Some {| broker := None; username := None; password := None |};
     devices := Some [ {| id := 11; name := js "Test Light"; room := Some (js "Test Room") |} ];
     unregisterOnShutdown := Some false |}.

(** No [devices], and [devices] empty. *)
Definition configNoDevices : MegaDConfig :=
  {| mqtt := mqtt testConfig; devices := None; unregisterOnShutdown := Some false |}.
Definition configEmptyDevices : MegaDConfig :=
  {| mqtt := mqtt testConfig; devices := Some []; unregisterOnShutdown := Some false |}.

(** A platform that stores a configuration as it is given. *)
Definition blank (mb : Matterbridge) (cfg : MegaDConfig) : Platform :=
  {| mqttClient := None; megaDConfig := cfg; config := cfg; matterbridge := mb;
     registered := []; clients := 0 |}.

(** The platform a constructor call returns ([blank] stands in where the
    constructor throws). *)
Definition created (mb : Matterbridge) (cfg : MegaDConfig) : Platform :=
  match fst (MegaDPlatform_new mb cfg) with
  | Ok p => p
  | Throw _ => blank mb cfg
  end.

(** After the constructor and [onStart]. *)
Definition started (mb : Matterbridge) (cfg : MegaDConfig) : Platform :=
  final (onStart None (created mb cfg)).

(** A platform whose stored configuration has no broker. *)
Definition degraded : Platform := blank host configNoBroker.

End Sample.

(** ** The remaining entry points *)

(** onChangeLoggerLevel (lines 167-169); a LogLevel is the string it
    interpolates to. *)
Definition onChangeLoggerLevel (logLevel : jsstring) : M unit :=
  log_info (js "onChangeLoggerLevel called with: " ++ logLevel).

(** initializePlugin (lines 97-99) *)
Definition initializePlugin (mb : Matterbridge) (cfg : MegaDConfig)
  : Result Platform * list Event :=
  MegaDPlatform_new mb cfg.

(** The number of slashes of a topic. *)
Definition slashes (topic : jsstring) : nat :=
  List.length (filter (N.eqb (ch "/")) topic).

(** The state topic the 'connect' listener subscribes to for a device. *)
Definition stateTopic (deviceId : Z) : jsstring :=
  js "alex/" ++ Number_toString deviceId.

(** The [uniqueId] the lookup of [updateDeviceState] asks for. *)
Definition lookupKey (deviceId : Z) : jsstring :=
  js "megad_" ++ Number_toString deviceId.


Module Sample2.


(** Two lights and credentials. *)
Definition twoLights : MegaDConfig :=
  {| mqtt := Some {| broker := Some (js "mqtt://broker:1883");
                     username := Some (js "megad"); password := Some (js "secret") |};
     devices := Some [ {| id := 11; name := js "Bedroom Light"; room := None |};
                       {| id := 12; name := js "Kitchen Light"; room := None |} ];
     unregisterOnShutdown := Some true |}.

End Sample2.

Module Sample3.

(** A host with the behaviour of Matterbridge and of the mqtt package in
    three respects: [mqtt.connect] throws on a URL without protocol, the
    registry refuses a device name it holds already, and the framework's
    onShutdown empties the registry. *)
Definition strictHost : Matterbridge :=
  {| matterbridgeVersion := js "3.0.7";
     aggregatorVendorId := 65521;
     verifyMatterbridgeVersion := Method (fun _ => true);
     createUniqueId := fun key _ _ _ _ => key;
     onOffLightClusterServers := [js "identify"; js "groups"; js "onOff"];
     connectError := fun url => if streq url (js "localhost")
                                then Some (js "Missing protocol") else None;
     connect_default := eq_refl;
     acceptsDevice := fun registry device =>
                        negb (existsb (fun d => streq (deviceName d) (deviceName device))
                                      registry);
     shutdownClearsRegistry := true |}.

(** A broker URL without protocol, with one light and with none. *)
Definition localhostBroker : MegaDConfig :=
  {| mqtt := Some {| broker := Some (js "localhost"); username := None; password := None |};
     devices := Some [ {| id := 11; name := js "Test Light"; room := Some (js "Test Room") |} ];
     unregisterOnShutdown := Some false |}.

Definition localhostBrokerNoDevices : MegaDConfig :=
  {| mqtt := mqtt localhostBroker; devices := Some []; unregisterOnShutdown := Some false |}.

End Sample3.

(** ** Histories

    What can happen to a platform after its construction: the framework
    calls a life-cycle method or runs a command handler, or the MQTT client
    fires one of the three listeners. *)
Inductive Call :=
| CallOnStart (reason : option jsstring)
| CallOnConfigure
| CallOnChangeLoggerLevel (logLevel : jsstring)
| CallOnShutdown (reason : option jsstring)
| CallCommandHandler (h : CommandHandler)
| FireConnect
| FireError (message : jsstring)
| FireMessage (topic message : jsstring).

Definition run (c : Call) : M unit :=
  match c with
  | CallOnStart reason => onStart reason
  | CallOnConfigure => onConfigure
  | CallOnChangeLoggerLevel logLevel => onChangeLoggerLevel logLevel
  | CallOnShutdown reason => onShutdown reason
  | CallCommandHandler h => executeCommandHandler h
  | FireConnect => onConnect
  | FireError message => onError message
  | FireMessage topic message => onMessage topic message
  end.

(** The platform after a history of calls. *)
Definition runAll (cs : list Call) (p : Platform) : Platform :=
  fold_left (fun q c => final (run c q)) cs p.

(** What every history keeps: the stored configuration has a broker, the
    stored client is one that was created, and the registry holds lights of
    this module only. *)
Definition Invariant (mb : Matterbridge) (p : Platform) : Prop :=
  truthy (mqtt_broker (megaDConfig p)) = true
  /\ matterbridge p = mb
  /\ (forall c, mqttClient p = Some c -> (c < clients p)%nat)
  /\ (forall e, In e (registered p) ->
                exists deviceId deviceName, e = megaDLight mb deviceId deviceName).

(** ** The JavaScript primitives on examples *)

Example split_ex1 : split (ch "/") (js "alex/11") = [js "alex"; js "11"].
Proof. reflexivity. Qed.
Example split_ex2 : split (ch "/") (js "") = [[]].
Proof. reflexivity. Qed.
Example split_ex3 : split (ch "/") (js "a//b/") = [js "a"; []; js "b"; []].
Proof. reflexivity. Qed.
Example parseInt_ex1 : parseInt (js "11") = Some 11.
Proof. reflexivity. Qed.
Example parseInt_ex2 : parseInt (js "abc") = None.
Proof. reflexivity. Qed.
Example parseInt_ex3 : parseInt (js "11abc") = Some 11.
Proof. reflexivity. Qed.
Example parseInt_ex4 : parseInt (js "  -0x1F.5") = Some (-31).
Proof. reflexivity. Qed.
Example parseInt_ex5 : parseInt (js "0x") = None.
Proof. reflexivity. Qed.
Example parseInt_ex6 : parseInt (js "") = None.
Proof. reflexivity. Qed.
Example toString_ex1 : Number_toString 11 = js "11".
Proof. reflexivity. Qed.
Example toString_ex2 : Number_toString (-5) = js "-5".
Proof. reflexivity. Qed.
Example toString_ex3 : Number_toString 0 = js "0".
Proof. reflexivity. Qed.
Example trim_ex1 : trim (js " 1  ") = js "1".
Proof. reflexivity. Qed.

(** A literal is a safe integer. *)
Ltac safe := unfold safe_integer, MAX_SAFE_INTEGER; simpl; lia.

(** ** Strings: equality and splitting *)

Lemma streq_eq (a b : jsstring) : streq a b = true <-> a = b.
Proof.
  revert b; induction a as [|x a IH]; intros [|y b]; simpl; split;
    try congruence; try reflexivity.
  - intros H. apply andb_true_iff in H as [Hxy Hab].
    apply N.eqb_eq in Hxy. apply IH in Hab. congruence.
  - intros H. injection H as -> ->. rewrite N.eqb_refl. simpl. now apply IH.
Qed.

Lemma streq_refl (a : jsstring) : streq a a = true.
Proof. now apply streq_eq. Qed.

Lemma split_not_nil (sep : N) (s : jsstring) : split sep s <> [].
Proof.
  destruct s as [|c r]; simpl; [discriminate|].
  destruct (N.eqb c sep); [discriminate|].
  destruct (split sep r); discriminate.
Qed.

(** A string without the separator is a single segment. *)
Lemma split_single (sep : N) (s : jsstring) :
  ~ In sep s -> split sep s = [s].
Proof.
  induction s as [|c r IH]; simpl; intros Hn; [reflexivity|].
  destruct (N.eqb_spec c sep) as [->|Hc]; [exfalso; auto|].
  rewrite IH by tauto. reflexivity.
Qed.

(** Splitting after a first segment. *)
Lemma split_app (sep : N) (a b : jsstring) :
  ~ In sep a -> split sep (a ++ sep :: b) = a :: split sep b.
Proof.
  induction a as [|c r IH]; simpl; intros Hn.
  - now rewrite N.eqb_refl.
  - destruct (N.eqb_spec c sep) as [->|Hc]; [exfalso; auto|].
    rewrite IH by tauto. reflexivity.
Qed.

(** The first segment and the rest determine the string. *)
Lemma split_cons_inv (sep : N) (s a : jsstring) (rest : list jsstring) :
  split sep s = a :: rest ->
  ~ In sep a /\
  match rest with
  | [] => s = a
  | _ => exists t, s = a ++ sep :: t /\ split sep t = rest
  end.
Proof.
  revert a rest; induction s as [|c r IH]; simpl; intros a rest H.
  - injection H as <- <-. simpl. tauto.
  - destruct (N.eqb_spec c sep) as [->|Hc].
    + injection H as <- <-. split; [simpl; tauto|].
      destruct (split sep r) eqn:E; [now apply split_not_nil in E|].
      exists r. now rewrite E.
    + destruct (split sep r) as [|seg segs] eqn:E; [now apply split_not_nil in E|].
      injection H as <- <-.
      destruct (IH seg segs eq_refl) as [Hseg Hrest]. split.
      * simpl. intros [Heq|Hin]; [congruence|auto].
      * destruct segs; [now subst|].
        destruct Hrest as (t & -> & Ht). exists t. now split.
Qed.

(** Exactly two segments: the string is the first, a separator, the
    second, and neither holds a separator. *)
Lemma split_two (sep : N) (s a b : jsstring) :
  split sep s = [a; b] <-> s = a ++ sep :: b /\ ~ In sep a /\ ~ In sep b.
Proof.
  split.
  - intros H. apply split_cons_inv in H as (Ha & t & -> & Ht).
    apply split_cons_inv in Ht as (Hb & ->). tauto.
  - intros (-> & Ha & Hb). rewrite split_app by assumption.
    now rewrite split_single.
Qed.

(** ** Inbound messages *)

(** [updateDeviceState] uses its payload through the decoded state only. *)
Lemma updateDeviceState_applyState (deviceId : Z) (state : jsstring) :
  updateDeviceState deviceId state = applyState deviceId (streq (trim state) (js "1")).
Proof. reflexivity. Qed.

(** [handleMqttMessage] logs the message, decodes it, and applies what it
    decoded. *)
Lemma handleMqttMessage_decodeInbound (topic message : jsstring) (p : Platform) :
  handleMqttMessage topic message p =
  (emit (received topic message) ;;
   match decodeInbound topic message with
   | Some (deviceId, isOn) => applyState deviceId isOn
   | None => ret tt
   end) p.
Proof.
  unfold handleMqttMessage, decodeInbound, log_info, received.
  destruct (_ && _); [|reflexivity].
  destruct (parseInt _); reflexivity.
Qed.

(** What [decodeInbound] accepts, in terms of the segments of the topic. *)
Lemma decodeInbound_Some (topic payload : jsstring) (deviceId : Z) (isOn : bool) :
  decodeInbound topic payload = Some (deviceId, isOn) <->
  exists seg, split (ch "/") topic = [js "alex"; seg]
              /\ parseInt seg = Some deviceId
              /\ isOn = streq (trim payload) (js "1").
Proof.
  unfold decodeInbound. split.
  - destruct (split (ch "/") topic) as [|a [|b [|c l]]] eqn:E; simpl; try discriminate.
    destruct (streq a (js "alex")) eqn:Ha; [|discriminate].
    apply streq_eq in Ha. subst a.
    destruct (parseInt b) eqn:Hb; [|discriminate].
    intros H. injection H as <- <-. now exists b.
  - intros (seg & -> & Hseg & ->). simpl. now rewrite Hseg.
Qed.

Lemma decodeInbound_None (topic payload : jsstring) :
  decodeInbound topic payload = None <->
  forall seg, split (ch "/") topic = [js "alex"; seg] -> parseInt seg = None.
Proof.
  split.
  - intros H seg Hs. destruct (parseInt seg) as [z|] eqn:Hz; [|reflexivity].
    assert (decodeInbound topic payload = Some (z, streq (trim payload) (js "1"))) as H'
      by (apply decodeInbound_Some; now exists seg).
    congruence.
  - intros H. destruct (decodeInbound topic payload) as [[z b]|] eqn:E; [|reflexivity].
    apply decodeInbound_Some in E as (seg & Hs & Hz & _).
    rewrite (H seg Hs) in Hz. discriminate.
Qed.

(** ** Decimal renderings *)

Lemma isDecimalDigit_cases (c : N) :
  isDecimalDigit c = true ->
  (c = 48 \/ c = 49 \/ c = 50 \/ c = 51 \/ c = 52 \/ c = 53 \/ c = 54 \/ c = 55
   \/ c = 56 \/ c = 57)%N.
Proof.
  unfold isDecimalDigit. intros H. apply andb_true_iff in H as [H1 H2].
  apply N.leb_le in H1, H2. lia.
Qed.

Lemma js_String (a : ascii) (s : string) : js (String a s) = N_of_ascii a :: js s.
Proof. reflexivity. Qed.

(** A decimal numeral is rendered with decimal digits only. *)
Lemma string_of_uint_digits (u : Decimal.uint) :
  forallb isDecimalDigit (js (NilEmpty.string_of_uint u)) = true.
Proof.
  induction u; simpl NilEmpty.string_of_uint; rewrite ?js_String; simpl; auto.
Qed.

Lemma leadingDigits_value_acc (u : Decimal.uint) (acc : positive) :
  fold_left (fun a d => a * 10 + d)
            (leadingDigits 10 (js (NilEmpty.string_of_uint u))) (Z.pos acc)
  = Z.pos (Pos.of_uint_acc u acc).
Proof.
  revert acc; induction u; intros acc; simpl NilEmpty.string_of_uint;
    rewrite ?js_String; [reflexivity| ..];
    cbn [leadingDigits N_of_ascii fold_left];
    match goal with
    | |- context [radixDigit 10 ?c] =>
        let v := eval vm_compute in (radixDigit 10 c) in
        change (radixDigit 10 c) with v
    end; cbn [fold_left]; cbn [Pos.of_uint_acc]; rewrite <- IHu; f_equal; lia.
Qed.

Lemma leadingDigits_value (u : Decimal.uint) :
  mathInt 10 (leadingDigits 10 (js (NilEmpty.string_of_uint u))) = Z.of_N (Pos.of_uint u).
Proof.
  unfold mathInt. induction u; simpl NilEmpty.string_of_uint;
    rewrite ?js_String; [reflexivity| ..];
    cbn [leadingDigits N_of_ascii fold_left];
    match goal with
    | |- context [radixDigit 10 ?c] =>
        let v := eval vm_compute in (radixDigit 10 c) in
        change (radixDigit 10 c) with v
    end; cbn [fold_left Pos.of_uint]; [exact IHu | ..];
    cbn [Z.mul Z.add Z.of_N]; apply leadingDigits_value_acc.
Qed.

Lemma leadingDigits_digit (c : N) (r : jsstring) :
  isDecimalDigit c = true -> leadingDigits 10 (c :: r) <> [].
Proof.
  intros H. apply isDecimalDigit_cases in H.
  repeat (destruct H as [-> | H]; [discriminate|]). subst. discriminate.
Qed.

(** On a string of decimal digits [parseInt] reads all of it, in radix
    10; a leading minus sign negates the value. *)
Lemma parseInt_digits (s : jsstring) :
  s <> [] -> forallb isDecimalDigit s = true ->
  parseInt s = Some (mathInt 10 (leadingDigits 10 s))
  /\ parseInt (ch "-" :: s) = Some (- mathInt 10 (leadingDigits 10 s)).
Proof.
  destruct s as [|c0 r]; [congruence|]. intros _ H.
  pose proof H as Hall.
  cbn [forallb] in H. apply andb_true_iff in H as [H0 Hr].
  pose proof (leadingDigits_digit c0 r H0) as Hne.
  assert (parseInt (c0 :: r) = match leadingDigits 10 (c0 :: r) with
                               | [] => None
                               | ds => Some (1 * mathInt 10 ds)
                               end
          /\ parseInt (ch "-" :: c0 :: r) = match leadingDigits 10 (c0 :: r) with
                                           | [] => None
                                           | ds => Some (-1 * mathInt 10 ds)
                                           end) as [E1 E2].
  { apply isDecimalDigit_cases in H0.
    destruct r as [|c1 r'].
    - repeat (destruct H0 as [-> | H0]; [split; reflexivity|]). subst. split; reflexivity.
    - cbn [forallb] in Hr. apply andb_true_iff in Hr as [H1 _].
      apply isDecimalDigit_cases in H1.
      repeat (destruct H0 as [-> | H0];
              [repeat (destruct H1 as [-> | H1]; [split; reflexivity|]);
               subst; split; reflexivity|]).
      subst. repeat (destruct H1 as [-> | H1]; [split; reflexivity|]).
      subst; split; reflexivity. }
  rewrite E1, E2. destruct (leadingDigits 10 (c0 :: r)) eqn:E; [congruence|].
  split; f_equal; lia.
Qed.

Lemma digits_no_slash (s : jsstring) :
  forallb isDecimalDigit s = true -> ~ In (ch "/") s.
Proof.
  intros H Hin. rewrite forallb_forall in H. apply H in Hin. discriminate.
Qed.

(** [parseInt] reads back the rendering of every integer. *)
Lemma parseInt_Number_toString (z : Z) : parseInt (Number_toString z) = Some z.
Proof.
  unfold Number_toString. destruct z as [|q|q]; [reflexivity| |];
    cbn [Z.to_int NilZero.string_of_int];
    pose proof (DecimalPos.Unsigned.to_uint_nonnil q) as Hq;
    pose proof (DecimalPos.Unsigned.of_to q) as Hv;
    destruct (Pos.to_uint q) eqn:E; try congruence;
    rewrite <- E in *; clear E;
    replace (NilZero.string_of_uint (Pos.to_uint q))
      with (NilEmpty.string_of_uint (Pos.to_uint q))
      by (destruct (Pos.to_uint q); [congruence | reflexivity ..]);
    rewrite ?js_String;
    (destruct (parseInt_digits (js (NilEmpty.string_of_uint (Pos.to_uint q)))) as [P1 P2];
     [ destruct (Pos.to_uint q); [congruence | discriminate ..]
     | apply string_of_uint_digits | ]);
    rewrite leadingDigits_value, Hv in P1, P2; assumption.
Qed.

(** The rendering of an integer holds no slash. *)
Lemma Number_toString_no_slash (z : Z) : ~ In (ch "/") (Number_toString z).
Proof.
  unfold Number_toString. destruct z as [|q|q]; cbn [Z.to_int NilZero.string_of_int].
  - simpl. intros [H|[]]. discriminate.
  - replace (NilZero.string_of_uint (Pos.to_uint q))
      with (NilEmpty.string_of_uint (Pos.to_uint q))
      by (pose proof (DecimalPos.Unsigned.to_uint_nonnil q);
          destruct (Pos.to_uint q); [congruence | reflexivity ..]).
    apply digits_no_slash, string_of_uint_digits.
  - rewrite js_String.
    replace (NilZero.string_of_uint (Pos.to_uint q))
      with (NilEmpty.string_of_uint (Pos.to_uint q))
      by (pose proof (DecimalPos.Unsigned.to_uint_nonnil q);
          destruct (Pos.to_uint q); [congruence | reflexivity ..]).
    intros [H|H]; [discriminate|].
    revert H. apply digits_no_slash, string_of_uint_digits.
Qed.

(** Every integer segment is one [parseInt] accepts. *)
Lemma integerSegment_parseInt (seg : jsstring) :
  integerSegment seg = true -> parseInt seg <> None.
Proof.
  unfold integerSegment. destruct seg as [|c r]; [discriminate|].
  destruct (N.eqb_spec c (ch "-")) as [->|Hc].
  - destruct r as [|c' r']; [discriminate|]. intros H.
    destruct (parseInt_digits (c' :: r')) as [_ P]; [discriminate|assumption|].
    rewrite P. discriminate.
  - intros H. destruct (parseInt_digits (c :: r)) as [P _]; [discriminate|assumption|].
    rewrite P. discriminate.
Qed.

Lemma find_none_unknown (deviceId : Z) (p : Platform) :
  findDevice deviceId p = None <->
  forall d, In d (registered p) -> uniqueId d <> js "megad_" ++ Number_toString deviceId.
Proof.
  unfold findDevice. split.
  - intros H d Hd Heq. apply (find_none _ _ H) in Hd.
    apply streq_eq in Heq. congruence.
  - intros H. destruct (find _ _) eqn:E; [|reflexivity].
    apply find_some in E as [Hin Heq]. apply streq_eq in Heq. now apply H in Hin.
Qed.

(** C1 (amended): an inbound message is logged, decoded and applied.  A
    topic with exactly two segments, the first "alex", the second one on
    which parseInt does not yield NaN, decodes to (parseInt of the second
    segment, payload.trim() === "1"); that holds in particular for the
    decimal rendering of any integer id.  Every other topic decodes to
    nothing: the handler logs the message and does nothing else. *)
Theorem inbound_message_decoding (topic payload : jsstring) (p : Platform) :
  handleMqttMessage topic payload p
  = (emit (received topic payload) ;;
     match decodeInbound topic payload with
     | Some (deviceId, isOn) => applyState deviceId isOn
     | None => ret tt
     end) p
  /\ (forall seg deviceId,
        split (ch "/") topic = [js "alex"; seg] ->
        parseInt seg = Some deviceId -> safe_integer deviceId ->
        decodeInbound topic payload = Some (deviceId, streq (trim payload) (js "1")))
  /\ (forall deviceId,
        safe_integer deviceId -> topic = js "alex/" ++ Number_toString deviceId ->
        decodeInbound topic payload = Some (deviceId, streq (trim payload) (js "1")))
  /\ (forall seg,
        split (ch "/") topic = [js "alex"; seg] -> integerSegment seg = true ->
        decodeInbound topic payload <> None)
  /\ ((forall seg, split (ch "/") topic = [js "alex"; seg] -> parseInt seg = None) ->
      decodeInbound topic payload = None
      /\ handleMqttMessage topic payload p = (Ok tt, p, [received topic payload])).
Proof.
  split; [apply handleMqttMessage_decodeInbound|].
  split; [|split; [|split]]; cycle 2.
  - intros seg Hs Hi Hnone.
    apply (integerSegment_parseInt seg Hi).
    exact (proj1 (decodeInbound_None topic payload) Hnone seg Hs).
  - intros H. apply (decodeInbound_None topic payload) in H.
    split; [assumption|]. rewrite handleMqttMessage_decodeInbound, H. reflexivity.
  - intros seg deviceId Hs Hp _. apply decodeInbound_Some. now exists seg.
  - intros deviceId _ ->. apply decodeInbound_Some.
    exists (Number_toString deviceId). split; [|split].
    + change (js "alex/" ++ Number_toString deviceId)
        with (js "alex" ++ ch "/" :: Number_toString deviceId).
      apply split_two. split; [reflexivity|]. split.
      * intros H. simpl in H. repeat (destruct H as [H|H]; [discriminate|]). exact H.
      * apply Number_toString_no_slash.
    + apply parseInt_Number_toString.
    + reflexivity.
Qed.

Lemma inbound_message_decoding_witness :
  decodeInbound (js "alex/11") (js "1") = Some (11, true)
  /\ decodeInbound (js "alex/11") (js "garbage") = Some (11, false)
  /\ decodeInbound (js "foo/11") (js "1") = None
  /\ decodeInbound (js "alex/abc") (js "1") = None.
Proof.
  pose (p := Sample.created Sample.host Sample.testConfig).
  split; [|split; [|split]].
  - apply (proj1 (proj2 (inbound_message_decoding (js "alex/11") (js "1") p)) (js "11") 11);
      [reflexivity | reflexivity | safe].
  - apply (proj1 (proj2 (proj2 (inbound_message_decoding (js "alex/11") (js "garbage") p))) 11);
      [safe | reflexivity].
  - apply (proj2 (proj2 (proj2 (proj2 (inbound_message_decoding (js "foo/11") (js "1") p))))).
    intros seg H. vm_compute in H. discriminate H.
  - apply (proj2 (proj2 (proj2 (proj2 (inbound_message_decoding (js "alex/abc") (js "1") p))))).
    intros seg H. vm_compute in H. injection H as <-. reflexivity.
Defined.

(** C1, as stated, fails: the second segment of "alex/11abc" is not an
    integer, yet the message is decoded as device 11 and applied. *)
Lemma nonInteger_segment_decoded :
  split (ch "/") (js "alex/11abc") = [js "alex"; js "11abc"]
  /\ integerSegment (js "11abc") = false
  /\ decodeInbound (js "alex/11abc") (js "1") = Some (11, true)
  /\ events (handleMqttMessage (js "alex/11abc") (js "1")
               (Sample.started Sample.host Sample.testConfig))
     = [ received (js "alex/11abc") (js "1");
         Log Info (js "Updating device 11 state to: ON");
         SetAttribute (megaDLight Sample.host 11 (js "Test Light"))
                      (js "onOff") (js "onOff") true ].
Proof. repeat split; vm_compute; reflexivity. Qed.

(** What [applyState] does, by the outcome of the registry lookup. *)
Lemma applyState_unknown (deviceId : Z) (isOn : bool) (p : Platform) :
  findDevice deviceId p = None ->
  applyState deviceId isOn p
  = (Ok tt, p,
     [Log Warn (js "Device with ID " ++ Number_toString deviceId ++ js " not found")]).
Proof.
  unfold findDevice, applyState, bind, getDevices, read. intros ->. reflexivity.
Qed.

Lemma applyState_known (deviceId : Z) (isOn : bool) (p : Platform) (device : Endpoint) :
  findDevice deviceId p = Some device ->
  applyState deviceId isOn p
  = (Ok tt, p,
     Log Info (js "Updating device " ++ Number_toString deviceId ++ js " state to: "
               ++ (if isOn then js "ON" else js "OFF"))
     :: (if hasClusterServer device (js "onOff")
         then [SetAttribute device (js "onOff") (js "onOff") isOn]
         else [])).
Proof.
  unfold findDevice, applyState, bind, getDevices, read. intros ->.
  unfold log_info, emit. destruct (hasClusterServer device (js "onOff")); reflexivity.
Qed.

(** C6: a message on a well-formed state topic whose id matches no
    registered device is logged, a warning is logged, and nothing else
    happens: no attribute is written, the platform is unchanged, and the
    handler returns normally. *)
Theorem unknownDevice_dropped
    (topic seg payload : jsstring) (deviceId : Z) (p : Platform) :
  split (ch "/") topic = [js "alex"; seg] ->
  parseInt seg = Some deviceId ->
  safe_integer deviceId ->
  (forall d, In d (registered p) ->
             uniqueId d <> js "megad_" ++ Number_toString deviceId) ->
  handleMqttMessage topic payload p
  = (Ok tt, p,
     [ received topic payload;
       Log Warn (js "Device with ID " ++ Number_toString deviceId ++ js " not found") ])
  /\ written (events (handleMqttMessage topic payload p)) = [].
Proof.
  intros Hs Hp _ Hnone. apply find_none_unknown in Hnone.
  assert (decodeInbound topic payload = Some (deviceId, streq (trim payload) (js "1"))) as Hd
    by (apply decodeInbound_Some; now exists seg).
  assert (handleMqttMessage topic payload p
          = (Ok tt, p,
             [ received topic payload;
               Log Warn (js "Device with ID " ++ Number_toString deviceId
                         ++ js " not found") ])) as E.
  { rewrite handleMqttMessage_decodeInbound, Hd.
    unfold bind. cbn [emit]. now rewrite applyState_unknown. }
  rewrite E. split; reflexivity.
Qed.

Lemma unknownDevice_dropped_witness :
  handleMqttMessage (js "alex/99") (js "1") (Sample.started Sample.host Sample.testConfig)
  = (Ok tt, Sample.started Sample.host Sample.testConfig,
     [ received (js "alex/99") (js "1");
       Log Warn (js "Device with ID 99 not found") ])
  /\ written (events (handleMqttMessage (js "alex/99") (js "1")
                        (Sample.started Sample.host Sample.testConfig))) = [].
Proof.
  apply (unknownDevice_dropped (js "alex/99") (js "99") (js "1") 99
           (Sample.started Sample.host Sample.testConfig)).
  - reflexivity.
  - reflexivity.
  - safe.
  - intros d Hd. vm_compute in Hd. destruct Hd as [<-|[]]. vm_compute. discriminate.
Defined.

(** C8 (amended): when the device a decoded update targets is registered
    but serves no onOff cluster, the write is skipped silently.  The handler
    logs the received message and the line "Updating device <id> state to:
    ON|OFF", exactly as it does before a write; it writes no attribute,
    leaves the platform unchanged and returns normally. *)
Theorem missingOnOff_write_skipped
    (topic payload : jsstring) (deviceId : Z) (isOn : bool) (p : Platform)
    (device : Endpoint) :
  decodeInbound topic payload = Some (deviceId, isOn) ->
  safe_integer deviceId ->
  findDevice deviceId p = Some device ->
  hasClusterServer device (js "onOff") = false ->
  handleMqttMessage topic payload p
  = (Ok tt, p,
     [ received topic payload;
       Log Info (js "Updating device " ++ Number_toString deviceId ++ js " state to: "
                 ++ (if isOn then js "ON" else js "OFF")) ])
  /\ written (events (handleMqttMessage topic payload p)) = [].
Proof.
  intros Hd _ Hf Hc.
  assert (handleMqttMessage topic payload p
          = (Ok tt, p,
             [ received topic payload;
               Log Info (js "Updating device " ++ Number_toString deviceId
                         ++ js " state to: "
                         ++ (if isOn then js "ON" else js "OFF")) ])) as E.
  { rewrite handleMqttMessage_decodeInbound, Hd.
    unfold bind. cbn [emit]. now rewrite (applyState_known _ _ _ _ Hf), Hc. }
  rewrite E. split; reflexivity.
Qed.

Lemma missingOnOff_write_skipped_witness :
  handleMqttMessage (js "alex/11") (js "1")
    (Sample.started Sample.hostWithoutOnOff Sample.testConfig)
  = (Ok tt, Sample.started Sample.hostWithoutOnOff Sample.testConfig,
     [ received (js "alex/11") (js "1");
       Log Info (js "Updating device 11 state to: ON") ])
  /\ written (events (handleMqttMessage (js "alex/11") (js "1")
                        (Sample.started Sample.hostWithoutOnOff Sample.testConfig))) = [].
Proof.
  apply (missingOnOff_write_skipped (js "alex/11") (js "1") 11 true
           (Sample.started Sample.hostWithoutOnOff Sample.testConfig)
           (megaDLight Sample.hostWithoutOnOff 11 (js "Test Light")));
    [reflexivity | safe | reflexivity | reflexivity].
Defined.

(** C8, as stated, fails: for a registered device without the onOff
    cluster the handler logs nothing about the mismatch.  The lines it logs
    are the two it logs for a device that has the cluster. *)
Lemma mismatch_not_logged :
  findDevice 11 (Sample.started Sample.hostWithoutOnOff Sample.testConfig)
  = Some (megaDLight Sample.hostWithoutOnOff 11 (js "Test Light"))
  /\ hasClusterServer (megaDLight Sample.hostWithoutOnOff 11 (js "Test Light")) (js "onOff")
     = false
  /\ logged (events (handleMqttMessage (js "alex/11") (js "1")
                       (Sample.started Sample.hostWithoutOnOff Sample.testConfig)))
     = [ (Info, js "MQTT message received - Topic: alex/11, Message: 1");
         (Info, js "Updating device 11 state to: ON") ]
  /\ logged (events (handleMqttMessage (js "alex/11") (js "1")
                       (Sample.started Sample.hostWithoutOnOff Sample.testConfig)))
     = logged (events (handleMqttMessage (js "alex/11") (js "1")
                         (Sample.started Sample.host Sample.testConfig))).
Proof. repeat split; vm_compute; reflexivity. Qed.

(** ** Outbound commands *)

Lemma sendMqttCommand_connected (deviceId state : Z) (p : Platform) (c : Client) :
  mqttClient p = Some c ->
  sendMqttCommand deviceId state p
  = (Ok tt, p,
     [ Log Info (js "Publishing to alex/cmd: " ++ Number_toString deviceId ++ js ":"
                 ++ Number_toString state);
       MqttPublish c (js "alex/cmd")
                   (Number_toString deviceId ++ js ":" ++ Number_toString state) ]).
Proof.
  unfold sendMqttCommand, bind, read. intros ->. reflexivity.
Qed.

Lemma sendMqttCommand_disconnected (deviceId state : Z) (p : Platform) :
  mqttClient p = None ->
  sendMqttCommand deviceId state p
  = (Ok tt, p, [Log Error (js "MQTT client not connected")]).
Proof.
  unfold sendMqttCommand, bind, read. intros ->. reflexivity.
Qed.

(** C2: the endpoint of device [deviceId] carries the handlers "on" and
    "off"; with an MQTT client in place, running the first publishes exactly
    ("alex/cmd", "<deviceId>:1") and running the second exactly
    ("alex/cmd", "<deviceId>:0"), on that client.  The topic does not depend
    on the device. *)
Theorem command_published
    (mb : Matterbridge) (deviceId : Z) (deviceName : jsstring) (p : Platform) (c : Client) :
  mqttClient p = Some c ->
  safe_integer deviceId ->
  commandHandlers (megaDLight mb deviceId deviceName)
  = [ (js "on", TurnOn deviceId deviceName); (js "off", TurnOff deviceId deviceName) ]
  /\ executeCommandHandler (TurnOn deviceId deviceName) p
     = (Ok tt, p,
        [ Log Info (js "Turning ON device " ++ Number_toString deviceId
                    ++ js " (" ++ deviceName ++ js ")");
          Log Info (js "Publishing to alex/cmd: " ++ Number_toString deviceId ++ js ":1");
          MqttPublish c (js "alex/cmd") (Number_toString deviceId ++ js ":1") ])
  /\ executeCommandHandler (TurnOff deviceId deviceName) p
     = (Ok tt, p,
        [ Log Info (js "Turning OFF device " ++ Number_toString deviceId
                    ++ js " (" ++ deviceName ++ js ")");
          Log Info (js "Publishing to alex/cmd: " ++ Number_toString deviceId ++ js ":0");
          MqttPublish c (js "alex/cmd") (Number_toString deviceId ++ js ":0") ])
  /\ published (events (executeCommandHandler (TurnOn deviceId deviceName) p))
     = [ (js "alex/cmd", Number_toString deviceId ++ js ":1") ]
  /\ published (events (executeCommandHandler (TurnOff deviceId deviceName) p))
     = [ (js "alex/cmd", Number_toString deviceId ++ js ":0") ].
Proof.
  intros Hc _. split; [reflexivity|].
  assert (forall state,
             (log_info (js "Turning ON device " ++ Number_toString deviceId
                        ++ js " (" ++ deviceName ++ js ")") ;;
              sendMqttCommand deviceId state) p
             = (Ok tt, p,
                [ Log Info (js "Turning ON device " ++ Number_toString deviceId
                            ++ js " (" ++ deviceName ++ js ")");
                  Log Info (js "Publishing to alex/cmd: " ++ Number_toString deviceId
                            ++ js ":" ++ Number_toString state);
                  MqttPublish c (js "alex/cmd")
                    (Number_toString deviceId ++ js ":" ++ Number_toString state) ])) as Hon.
  { intros state. unfold bind, log_info, emit.
    now rewrite (sendMqttCommand_connected _ _ _ _ Hc). }
  assert (forall state,
             (log_info (js "Turning OFF device " ++ Number_toString deviceId
                        ++ js " (" ++ deviceName ++ js ")") ;;
              sendMqttCommand deviceId state) p
             = (Ok tt, p,
                [ Log Info (js "Turning OFF device " ++ Number_toString deviceId
                            ++ js " (" ++ deviceName ++ js ")");
                  Log Info (js "Publishing to alex/cmd: " ++ Number_toString deviceId
                            ++ js ":" ++ Number_toString state);
                  MqttPublish c (js "alex/cmd")
                    (Number_toString deviceId ++ js ":" ++ Number_toString state) ])) as Hoff.
  { intros state. unfold bind, log_info, emit.
    now rewrite (sendMqttCommand_connected _ _ _ _ Hc). }
  cbn [executeCommandHandler]. rewrite (Hon 1), (Hoff 0).
  repeat split; reflexivity.
Qed.

Lemma command_published_witness :
  published (events (executeCommandHandler (TurnOn 11 (js "Test Light"))
                       (Sample.started Sample.host Sample.testConfig)))
  = [ (js "alex/cmd", js "11:1") ]
  /\ published (events (executeCommandHandler (TurnOff 11 (js "Test Light"))
                          (Sample.started Sample.host Sample.testConfig)))
     = [ (js "alex/cmd", js "11:0") ].
Proof.
  assert (safe_integer 11) as Hsafe by safe.
  split.
  - exact (proj1 (proj2 (proj2 (proj2
             (command_published Sample.host 11 (js "Test Light")
                (Sample.started Sample.host Sample.testConfig) 0%nat eq_refl Hsafe))))).
  - exact (proj2 (proj2 (proj2 (proj2
             (command_published Sample.host 11 (js "Test Light")
                (Sample.started Sample.host Sample.testConfig) 0%nat eq_refl Hsafe))))).
Defined.

(** C7 (amended): while the platform has no MQTT client, a command handler
    logs its "Turning ON|OFF" line and then the message "MQTT client not
    connected" at error level; it publishes nothing, keeps nothing for
    later (the platform is unchanged) and returns normally. *)
Theorem command_dropped_when_disconnected (h : CommandHandler) (p : Platform) :
  mqttClient p = None ->
  executeCommandHandler h p
  = (Ok tt, p,
     [ Log Info (match h with
                 | TurnOn deviceId deviceName =>
                     js "Turning ON device " ++ Number_toString deviceId
                     ++ js " (" ++ deviceName ++ js ")"
                 | TurnOff deviceId deviceName =>
                     js "Turning OFF device " ++ Number_toString deviceId
                     ++ js " (" ++ deviceName ++ js ")"
                 end);
       Log Error (js "MQTT client not connected") ])
  /\ published (events (executeCommandHandler h p)) = []
  /\ mqttCalls (events (executeCommandHandler h p)) = [].
Proof.
  intros Hc.
  assert (executeCommandHandler h p
          = (Ok tt, p,
             [ Log Info (match h with
                         | TurnOn deviceId deviceName =>
                             js "Turning ON device " ++ Number_toString deviceId
                             ++ js " (" ++ deviceName ++ js ")"
                         | TurnOff deviceId deviceName =>
                             js "Turning OFF device " ++ Number_toString deviceId
                             ++ js " (" ++ deviceName ++ js ")"
                         end);
               Log Error (js "MQTT client not connected") ])) as E.
  { destruct h; cbn [executeCommandHandler]; unfold bind, log_info, emit;
      now rewrite (sendMqttCommand_disconnected _ _ _ Hc). }
  rewrite E. repeat split; reflexivity.
Qed.

Lemma command_dropped_when_disconnected_witness :
  published (events (executeCommandHandler (TurnOn 11 (js "Test Light"))
                       (Sample.created Sample.host Sample.testConfig))) = [].
Proof.
  exact (proj1 (proj2 (command_dropped_when_disconnected (TurnOn 11 (js "Test Light"))
                         (Sample.created Sample.host Sample.testConfig) eq_refl))).
Defined.

(** C7, as stated, fails: with no MQTT client the handler logs no warning.
    Its "not connected" line is logged at error level. *)
Lemma notConnected_is_error_level :
  mqttClient (Sample.created Sample.host Sample.testConfig) = None
  /\ logged (events (executeCommandHandler (TurnOn 11 (js "Test Light"))
                       (Sample.created Sample.host Sample.testConfig)))
     = [ (Info, js "Turning ON device 11 (Test Light)");
         (Error, js "MQTT client not connected") ]
  /\ loggedAt Warn (events (executeCommandHandler (TurnOn 11 (js "Test Light"))
                              (Sample.created Sample.host Sample.testConfig))) = []
  /\ loggedAt Error (events (executeCommandHandler (TurnOn 11 (js "Test Light"))
                               (Sample.created Sample.host Sample.testConfig)))
     = [js "MQTT client not connected"].
Proof. repeat split; vm_compute; reflexivity.
Qed.

(** ** Start-up *)

Lemma with_registered_same (p : Platform) : with_registered p (registered p) = p.
Proof. now destruct p. Qed.

Lemma createMegaDLight_run (deviceId : Z) (deviceName : jsstring) (p : Platform) :
  createMegaDLight deviceId deviceName p
  = (Ok tt,
     with_registered p
       (registerAll (matterbridge p) (registered p)
          [megaDLight (matterbridge p) deviceId deviceName]),
     lightEvents (matterbridge p) deviceId deviceName).
Proof. reflexivity. Qed.

Lemma forOf_createMegaDLight (ds : list DeviceConfig) (p : Platform) :
  forOf ds (fun deviceConfig =>
      log_info (js "Creating configured device: " ++ name deviceConfig
                ++ js " (ID: " ++ Number_toString (id deviceConfig) ++ js ")") ;;
      createMegaDLight (id deviceConfig) (name deviceConfig)) p
  = (Ok tt,
     with_registered p
       (registerAll (matterbridge p) (registered p)
          (map (fun d => megaDLight (matterbridge p) (id d) (name d)) ds)),
     flat_map (fun d =>
                 Log Info (js "Creating configured device: " ++ name d
                           ++ js " (ID: " ++ Number_toString (id d) ++ js ")")
                 :: lightEvents (matterbridge p) (id d) (name d)) ds).
Proof.
  revert p; induction ds as [|d ds IH]; intros p.
  - cbn [forOf map flat_map registerAll fold_left]. rewrite with_registered_same.
    reflexivity.
  - cbn [forOf map flat_map]. unfold bind at 1. unfold bind at 1.
    cbn [log_info emit]. rewrite createMegaDLight_run. rewrite IH. reflexivity.
Qed.

(** [createDevices] registers the lights of [lightsToCreate], in order,
    and returns normally. *)
Lemma createDevices_run (p : Platform) :
  createDevices p
  = (Ok tt,
     with_registered p (registerAll (matterbridge p) (registered p) (lightsToCreate p)),
     createDevicesEvents p).
Proof.
  unfold createDevices, lightsToCreate, createDevicesEvents, bind at 1, read.
  destruct (devices (megaDConfig p)) as [[|d ds]|]; try reflexivity.
  rewrite forOf_createMegaDLight. reflexivity.
Qed.

Lemma calls_app (a b : list Event) : calls (a ++ b) = calls a ++ calls b.
Proof. apply filter_app. Qed.

Lemma mqttCalls_app (a b : list Event) : mqttCalls (a ++ b) = mqttCalls a ++ mqttCalls b.
Proof. apply filter_app. Qed.

Lemma registeredBy_app (a b : list Event) :
  registeredBy (a ++ b) = registeredBy a ++ registeredBy b.
Proof. apply flat_map_app. Qed.

Lemma createDevicesEvents_calls (p : Platform) :
  calls (createDevicesEvents p) = map RegisterDevice (lightsToCreate p).
Proof.
  unfold createDevicesEvents, lightsToCreate.
  destruct (devices (megaDConfig p)) as [[|d ds]|]; try reflexivity.
  generalize (d :: ds) as l. induction l as [|x l IH]; [reflexivity|].
  cbn [flat_map map]. rewrite calls_app, IH. reflexivity.
Qed.

Lemma createDevicesEvents_registeredBy (p : Platform) :
  registeredBy (createDevicesEvents p) = lightsToCreate p.
Proof.
  unfold createDevicesEvents, lightsToCreate.
  destruct (devices (megaDConfig p)) as [[|d ds]|]; try reflexivity.
  generalize (d :: ds) as l. induction l as [|x l IH]; [reflexivity|].
  cbn [flat_map map]. rewrite registeredBy_app, IH. reflexivity.
Qed.

Lemma createDevicesEvents_mqttCalls (p : Platform) :
  mqttCalls (createDevicesEvents p) = [].
Proof.
  unfold createDevicesEvents.
  destruct (devices (megaDConfig p)) as [[|d ds]|]; try reflexivity.
  generalize (d :: ds) as l. induction l as [|x l IH]; [reflexivity|].
  cbn [flat_map]. rewrite mqttCalls_app, IH. reflexivity.
Qed.

Lemma initializeMqtt_configured (p : Platform) :
  truthy (mqtt_broker (megaDConfig p)) = true ->
  connectError (matterbridge p) (str (mqtt_broker (megaDConfig p))) = None ->
  initializeMqtt p
  = (Ok tt,
     with_mqttClient (with_clients p (S (clients p))) (Some (clients p)),
     [ Log Info (js "Connecting to MQTT broker: " ++ str (mqtt_broker (megaDConfig p)));
       MqttConnect (clients p) (str (mqtt_broker (megaDConfig p)))
                   (connectOptions (megaDConfig p));
       MqttOn (clients p) (js "connect");
       MqttOn (clients p) (js "error");
       MqttOn (clients p) (js "message") ]).
Proof.
  intros H Hc. unfold initializeMqtt, bind at 1, read. rewrite H. cbn [negb].
  unfold bind at 1. cbn [log_info emit]. unfold bind at 1, mqtt_connect.
  rewrite Hc. reflexivity.
Qed.

(** An error of [mqtt.connect] leaves [initializeMqtt] as it is thrown:
    no client is stored and no listener registered. *)
Lemma initializeMqtt_throws (p : Platform) (error : jsstring) :
  truthy (mqtt_broker (megaDConfig p)) = true ->
  connectError (matterbridge p) (str (mqtt_broker (megaDConfig p))) = Some error ->
  initializeMqtt p
  = (Throw error, p,
     [ Log Info (js "Connecting to MQTT broker: " ++ str (mqtt_broker (megaDConfig p)));
       MqttConnect (clients p) (str (mqtt_broker (megaDConfig p)))
                   (connectOptions (megaDConfig p)) ]).
Proof.
  intros H Hc. unfold initializeMqtt, bind at 1, read. rewrite H. cbn [negb].
  unfold bind at 1. cbn [log_info emit]. unfold bind at 1, mqtt_connect.
  rewrite Hc. reflexivity.
Qed.

Lemma initializeMqtt_unconfigured (p : Platform) :
  truthy (mqtt_broker (megaDConfig p)) = false ->
  initializeMqtt p
  = (Ok tt, p,
     [ Log Warn (js "MQTT broker not configured - devices will be created but MQTT functionality will be disabled") ]).
Proof.
  intros H. unfold initializeMqtt, bind at 1, read. rewrite H. reflexivity.
Qed.

(** [onStart] with a broker in the stored configuration, when
    [mqtt.connect] returns. *)
Lemma onStart_configured (reason : option jsstring) (p : Platform) :
  truthy (mqtt_broker (megaDConfig p)) = true ->
  connectError (matterbridge p) (str (mqtt_broker (megaDConfig p))) = None ->
  onStart reason p
  = (Ok tt,
     with_registered
       (with_mqttClient (with_clients p (S (clients p))) (Some (clients p)))
       (registerAll (matterbridge p) (registered p) (lightsToCreate p)),
     [ Log Info (js "onStart called with reason: " ++ reasonOrNone reason);
       AwaitReady;
       ClearSelect;
       Log Info (js "Connecting to MQTT broker: " ++ str (mqtt_broker (megaDConfig p)));
       MqttConnect (clients p) (str (mqtt_broker (megaDConfig p)))
                   (connectOptions (megaDConfig p));
       MqttOn (clients p) (js "connect");
       MqttOn (clients p) (js "error");
       MqttOn (clients p) (js "message") ]
     ++ createDevicesEvents p).
Proof.
  intros H Hc. unfold onStart, bind, log_info, emit.
  rewrite (initializeMqtt_configured p H Hc), createDevices_run. reflexivity.
Qed.

(** [onStart] when [mqtt.connect] throws: the error passes through, after
    the readiness wait and [clearSelect]; the platform is as before. *)
Lemma onStart_throws (reason : option jsstring) (p : Platform) (error : jsstring) :
  truthy (mqtt_broker (megaDConfig p)) = true ->
  connectError (matterbridge p) (str (mqtt_broker (megaDConfig p))) = Some error ->
  onStart reason p
  = (Throw error, p,
     [ Log Info (js "onStart called with reason: " ++ reasonOrNone reason);
       AwaitReady;
       ClearSelect;
       Log Info (js "Connecting to MQTT broker: " ++ str (mqtt_broker (megaDConfig p)));
       MqttConnect (clients p) (str (mqtt_broker (megaDConfig p)))
                   (connectOptions (megaDConfig p)) ]).
Proof.
  intros H Hc. unfold onStart, bind, log_info, emit.
  rewrite (initializeMqtt_throws p error H Hc). reflexivity.
Qed.

(** [onStart] without one. *)
Lemma onStart_unconfigured (reason : option jsstring) (p : Platform) :
  truthy (mqtt_broker (megaDConfig p)) = false ->
  onStart reason p
  = (Ok tt,
     with_registered p (registerAll (matterbridge p) (registered p) (lightsToCreate p)),
     [ Log Info (js "onStart called with reason: " ++ reasonOrNone reason);
       AwaitReady;
       ClearSelect;
       Log Warn (js "MQTT broker not configured - devices will be created but MQTT functionality will be disabled") ]
     ++ createDevicesEvents p).
Proof.
  intros H. unfold onStart, bind, log_info, emit.
  rewrite (initializeMqtt_unconfigured p H), createDevices_run. reflexivity.
Qed.

(** What the constructor stores. *)
Lemma MegaDPlatform_new_Ok (mb : Matterbridge) (cfg : MegaDConfig) (p : Platform) :
  fst (MegaDPlatform_new mb cfg) = Ok p ->
  versionGuard mb = false
  /\ mqttClient p = None
  /\ matterbridge p = mb
  /\ config p = cfg
  /\ registered p = []
  /\ mqtt_broker (megaDConfig p)
     = Some (if truthy (mqtt_broker cfg) then str (mqtt_broker cfg) else defaultBroker)
  /\ mqtt_username (megaDConfig p) = mqtt_username cfg
  /\ mqtt_password (megaDConfig p) = mqtt_password cfg
  /\ devices (megaDConfig p)
     = Some (match devices cfg with Some ds => ds | None => defaultDevices end).
Proof.
  unfold MegaDPlatform_new. destruct (versionGuard mb); [discriminate|].
  cbn [fst]. intros H. injection H as <-. repeat split; reflexivity.
Qed.

(** The broker the constructor stores is never empty. *)
Lemma MegaDPlatform_new_broker (mb : Matterbridge) (cfg : MegaDConfig) (p : Platform) :
  fst (MegaDPlatform_new mb cfg) = Ok p ->
  truthy (mqtt_broker (megaDConfig p)) = true.
Proof.
  intros H. apply MegaDPlatform_new_Ok in H as (_ & _ & _ & _ & _ & -> & _).
  unfold truthy at 1. destruct (mqtt_broker cfg) as [[|c r]|]; reflexivity.
Qed.

(** A loop whose body leaves the platform as it is. *)
Lemma forOf_stateless {A} (l : list A) (body : A -> M unit) (evs : A -> list Event)
    (p : Platform) :
  (forall x, body x p = (Ok tt, p, evs x)) ->
  forOf l body p = (Ok tt, p, flat_map evs l).
Proof.
  intros H. induction l as [|x l IH]; [reflexivity|].
  cbn [forOf flat_map]. unfold bind. rewrite H, IH. reflexivity.
Qed.

(** The 'connect' listener subscribes, on the current client, to the state
    topic of each configured device, in order. *)
Lemma onConnect_run (p : Platform) :
  onConnect p
  = (Ok tt, p,
     Log Info (js "Connected to MQTT broker")
     :: flat_map (fun d =>
                    match mqttClient p with
                    | Some c => [MqttSubscribe c (js "alex/" ++ Number_toString (id d))]
                    | None => []
                    end
                    ++ [Log Info (js "Subscribed to alex/" ++ Number_toString (id d))])
                 (match devices (megaDConfig p) with Some ds => ds | None => [] end)).
Proof.
  unfold onConnect. unfold bind at 1. cbn [log_info emit].
  unfold bind at 1. cbn [read].
  destruct (devices (megaDConfig p)) as [ds|]; [|reflexivity].
  rewrite (forOf_stateless ds _
             (fun d =>
                match mqttClient p with
                | Some c => [MqttSubscribe c (js "alex/" ++ Number_toString (id d))]
                | None => []
                end
                ++ [Log Info (js "Subscribed to alex/" ++ Number_toString (id d))])).
  - reflexivity.
  - intros x. unfold bind, read, log_info, emit. destruct (mqttClient p); reflexivity.
Qed.

Lemma calls_subscriptions (c : Client) (ds : list DeviceConfig) :
  calls (flat_map (fun d =>
                     [MqttSubscribe c (js "alex/" ++ Number_toString (id d))]
                     ++ [Log Info (js "Subscribed to alex/" ++ Number_toString (id d))]) ds)
  = map (fun d => MqttSubscribe c (js "alex/" ++ Number_toString (id d))) ds.
Proof.
  induction ds as [|d ds IH]; [reflexivity|].
  cbn [flat_map map]. rewrite calls_app, IH. reflexivity.
Qed.

(** C4 (amended): on a platform the constructor built (or any later state
    of it: the stored configuration never changes), when [mqtt.connect]
    returns, [onStart] returns normally after calling, in this order: the
    readiness wait, [clearSelect], [mqtt.connect] with the registration of
    the three listeners, and [registerDevice] for each light to create; the
    'connect' listener then subscribes, on the client just created, to
    "alex/<id>" for each configured device, in order.  When [mqtt.connect]
    throws, [onStart] ends with that error after the readiness wait,
    [clearSelect] and the connect call: it registers no listener, creates no
    device and leaves the platform as it was. *)
Theorem onStart_order
    (mb : Matterbridge) (cfg : MegaDConfig) (p0 p : Platform) (reason : option jsstring) :
  fst (MegaDPlatform_new mb cfg) = Ok p0 ->
  megaDConfig p = megaDConfig p0 ->
  matterbridge p = mb ->
  (connectError mb (if truthy (mqtt_broker cfg) then str (mqtt_broker cfg)
                    else defaultBroker) = None ->
   result (onStart reason p) = Ok tt
   /\ calls (events (onStart reason p))
      = [ AwaitReady;
          ClearSelect;
          MqttConnect (clients p)
            (if truthy (mqtt_broker cfg) then str (mqtt_broker cfg) else defaultBroker)
            (connectOptions cfg);
          MqttOn (clients p) (js "connect");
          MqttOn (clients p) (js "error");
          MqttOn (clients p) (js "message") ]
        ++ map RegisterDevice (lightsToCreate p)
   /\ lightsToCreate p
      = match (match devices cfg with Some ds => ds | None => defaultDevices end) with
        | [] => [megaDLight mb 11 (js "Bedroom Light")]
        | ds => map (fun d => megaDLight mb (id d) (name d)) ds
        end
   /\ mqttClient (final (onStart reason p)) = Some (clients p)
   /\ calls (events (onConnect (final (onStart reason p))))
      = map (fun d => MqttSubscribe (clients p) (js "alex/" ++ Number_toString (id d)))
            (match devices cfg with Some ds => ds | None => defaultDevices end))
  /\ (forall error,
        connectError mb (if truthy (mqtt_broker cfg) then str (mqtt_broker cfg)
                         else defaultBroker) = Some error ->
        onStart reason p
        = (Throw error, p,
           [ Log Info (js "onStart called with reason: " ++ reasonOrNone reason);
             AwaitReady;
             ClearSelect;
             Log Info (js "Connecting to MQTT broker: "
                       ++ (if truthy (mqtt_broker cfg) then str (mqtt_broker cfg)
                           else defaultBroker));
             MqttConnect (clients p)
               (if truthy (mqtt_broker cfg) then str (mqtt_broker cfg) else defaultBroker)
               (connectOptions cfg) ])).
Proof.
  intros Hnew Hcfg Hmb.
  pose proof (MegaDPlatform_new_broker _ _ _ Hnew) as Hb.
  apply MegaDPlatform_new_Ok in Hnew as (_ & _ & _ & _ & _ & Hbroker & Hu & Hpw & Hds).
  rewrite <- Hcfg in Hb, Hbroker, Hu, Hpw, Hds.
  assert (connectOptions (megaDConfig p) = connectOptions cfg) as Hopt
    by (unfold connectOptions; now rewrite Hu, Hpw).
  assert (str (mqtt_broker (megaDConfig p))
          = (if truthy (mqtt_broker cfg) then str (mqtt_broker cfg) else defaultBroker))
    as Hstr by now rewrite Hbroker.
  split.
  - intros Hc. rewrite <- Hstr, <- Hmb in Hc.
    rewrite (onStart_configured reason p Hb Hc).
    unfold result, final, events. cbn [fst snd].
    split; [reflexivity|].
    split; [|split; [|split; [reflexivity|]]].
    + rewrite calls_app, createDevicesEvents_calls, Hstr, Hopt. reflexivity.
    + unfold lightsToCreate. rewrite Hds, Hmb.
      destruct (match devices cfg with Some ds => ds | None => defaultDevices end);
        reflexivity.
    + rewrite onConnect_run. cbn [snd with_registered with_mqttClient with_clients
                                    mqttClient megaDConfig].
      rewrite Hds. change (calls (?a :: ?l)) with (calls l).
      apply calls_subscriptions.
  - intros error Hc. rewrite <- Hstr, <- Hmb in Hc.
    rewrite (onStart_throws reason p error Hb Hc), Hstr, Hopt. reflexivity.
Qed.

Lemma onStart_order_witness :
  calls (events (onStart (Some (js "Jest")) (Sample.created Sample.host Sample.testConfig)))
  = [ AwaitReady;
      ClearSelect;
      MqttConnect 0%nat (js "mqtt://localhost:1883")
        {| options_username := None; options_password := None |};
      MqttOn 0%nat (js "connect");
      MqttOn 0%nat (js "error");
      MqttOn 0%nat (js "message");
      RegisterDevice (megaDLight Sample.host 11 (js "Test Light")) ].
Proof.
  exact (proj1 (proj2 (proj1 (onStart_order Sample.host Sample.testConfig
                                (Sample.created Sample.host Sample.testConfig)
                                (Sample.created Sample.host Sample.testConfig)
                                (Some (js "Jest")) eq_refl eq_refl eq_refl)
                         eq_refl))).
Defined.

(** C4, as stated, fails: with a broker URL on which [mqtt.connect] throws,
    [onStart] ends with the error after [clearSelect] and the connect call;
    the steps after it are skipped: no listener, no device. *)
Lemma onStart_aborts_on_connect_error :
  fst (MegaDPlatform_new Sample3.strictHost Sample3.localhostBroker)
  = Ok (Sample.created Sample3.strictHost Sample3.localhostBroker)
  /\ result (onStart None (Sample.created Sample3.strictHost Sample3.localhostBroker))
     = Throw (js "Missing protocol")
  /\ calls (events (onStart None (Sample.created Sample3.strictHost Sample3.localhostBroker)))
     = [ AwaitReady;
         ClearSelect;
         MqttConnect 0%nat (js "localhost")
           {| options_username := None; options_password := None |} ]
  /\ registeredBy (events (onStart None
                             (Sample.created Sample3.strictHost Sample3.localhostBroker)))
     = []
  /\ registered (Sample.started Sample3.strictHost Sample3.localhostBroker) = [].
Proof. repeat split; vm_compute; reflexivity. Qed.

Lemma lightsToCreate_not_nil (p : Platform) : lightsToCreate p <> [].
Proof.
  unfold lightsToCreate. destruct (devices (megaDConfig p)) as [[|d ds]|]; discriminate.
Qed.

(** The registry after a run of registrations holds what it held and
    devices of the run, nothing else. *)
Lemma registerAll_In (mb : Matterbridge) (devs registry : list Endpoint) (e : Endpoint) :
  In e (registerAll mb registry devs) -> In e registry \/ In e devs.
Proof.
  unfold registerAll. revert registry.
  induction devs as [|d devs IH]; intros registry; cbn [fold_left]; [tauto|].
  intros H. apply IH in H as [H|H]; [|cbn; tauto].
  destruct (acceptsDevice mb registry d); [|tauto].
  apply in_app_or in H as [H|[<-|[]]]; cbn; tauto.
Qed.

(** The three ways [onStart] can go. *)
Lemma onStart_cases (reason : option jsstring) (p : Platform) :
  (result (onStart reason p) = Ok tt
   /\ registeredBy (events (onStart reason p)) = lightsToCreate p
   /\ registered (final (onStart reason p))
      = registerAll (matterbridge p) (registered p) (lightsToCreate p))
  \/ (exists error,
        result (onStart reason p) = Throw error
        /\ final (onStart reason p) = p
        /\ registeredBy (events (onStart reason p)) = []).
Proof.
  destruct (truthy (mqtt_broker (megaDConfig p))) eqn:H.
  - destruct (connectError (matterbridge p) (str (mqtt_broker (megaDConfig p))))
      as [error|] eqn:Hc.
    + right. exists error. rewrite (onStart_throws reason p error H Hc).
      repeat split; reflexivity.
    + left. rewrite (onStart_configured reason p H Hc).
      unfold result, events, final. cbn [fst snd].
      rewrite registeredBy_app, createDevicesEvents_registeredBy. repeat split; reflexivity.
  - left. rewrite (onStart_unconfigured reason p H).
    unfold result, events, final. cbn [fst snd].
    rewrite registeredBy_app, createDevicesEvents_registeredBy. repeat split; reflexivity.
Qed.

(** C3 (amended): a configuration whose mqtt.broker is missing (absent or
    empty) does not lead to degraded mode.  The constructor stores the
    default broker "mqtt://localhost:1883" for it, and [onStart] connects to
    that broker, registers the three listeners and creates the lights.
    Degraded mode is what the code does on a platform whose stored broker is
    empty, a state the constructor never produces: there [onStart] logs the
    warning, makes no call on the MQTT library, creates the lights all the
    same, and a command handler publishes nothing and returns normally. *)
Theorem missing_broker_default
    (mb : Matterbridge) (cfg : MegaDConfig) (reason : option jsstring)
    (q : Platform) (h : CommandHandler) :
  (truthy (mqtt_broker cfg) = false -> versionGuard mb = false ->
   exists p,
     fst (MegaDPlatform_new mb cfg) = Ok p
     /\ mqtt_broker (megaDConfig p) = Some defaultBroker
     /\ mqttCalls (events (onStart reason p))
        = [ MqttConnect 0%nat defaultBroker (connectOptions cfg);
            MqttOn 0%nat (js "connect");
            MqttOn 0%nat (js "error");
            MqttOn 0%nat (js "message") ]
     /\ mqttClient (final (onStart reason p)) = Some 0%nat
     /\ registeredBy (events (onStart reason p)) = lightsToCreate p)
  /\ (truthy (mqtt_broker (megaDConfig q)) = false -> mqttClient q = None ->
      result (onStart reason q) = Ok tt
      /\ In (Log Warn (js "MQTT broker not configured - devices will be created but MQTT functionality will be disabled"))
            (events (onStart reason q))
      /\ mqttCalls (events (onStart reason q)) = []
      /\ mqttClient (final (onStart reason q)) = None
      /\ registeredBy (events (onStart reason q)) = lightsToCreate q
      /\ result (executeCommandHandler h (final (onStart reason q))) = Ok tt
      /\ mqttCalls (events (executeCommandHandler h (final (onStart reason q)))) = [])
  /\ (forall p, fst (MegaDPlatform_new mb cfg) = Ok p ->
                 truthy (mqtt_broker (megaDConfig p)) = true).
Proof.
  split; [|split; [|apply MegaDPlatform_new_broker]].
  - intros Hb Hv. unfold MegaDPlatform_new. rewrite Hv, Hb. cbn [fst].
    eexists. split; [reflexivity|].
    split; [reflexivity|].
    rewrite onStart_configured; [|reflexivity|apply connect_default].
    unfold events, final. cbn [fst snd].
    rewrite mqttCalls_app, createDevicesEvents_mqttCalls.
    split; [|split; [reflexivity|]].
    + cbn [mqtt_broker mqtt megaDConfig broker str clients].
      unfold connectOptions. reflexivity.
    + rewrite registeredBy_app, createDevicesEvents_registeredBy. reflexivity.
  - intros Hb Hc.
    rewrite (onStart_unconfigured reason q Hb).
    unfold result, events, final. cbn [fst snd].
    split; [reflexivity|].
    split; [cbn; tauto|].
    split; [rewrite mqttCalls_app, createDevicesEvents_mqttCalls; reflexivity|].
    split; [exact Hc|].
    split; [rewrite registeredBy_app, createDevicesEvents_registeredBy; reflexivity|].
    assert (mqttClient (with_registered q
                          (registerAll (matterbridge q) (registered q) (lightsToCreate q)))
            = None) as Hc' by exact Hc.
    destruct h; cbn [executeCommandHandler]; unfold bind, log_info, emit;
      rewrite (sendMqttCommand_disconnected _ _ _ Hc'); split; reflexivity.
Qed.

Lemma missing_broker_default_witness :
  (exists p,
     fst (MegaDPlatform_new Sample.host Sample.configNoBroker) = Ok p
     /\ mqtt_broker (megaDConfig p) = Some defaultBroker
     /\ mqttCalls (events (onStart None p))
        = [ MqttConnect 0%nat defaultBroker (connectOptions Sample.configNoBroker);
            MqttOn 0%nat (js "connect");
            MqttOn 0%nat (js "error");
            MqttOn 0%nat (js "message") ]
     /\ mqttClient (final (onStart None p)) = Some 0%nat
     /\ registeredBy (events (onStart None p)) = lightsToCreate p)
  /\ mqttCalls (events (onStart None Sample.degraded)) = [].
Proof.
  split.
  - exact (proj1 (missing_broker_default Sample.host Sample.configNoBroker None
                    Sample.degraded (TurnOn 11 (js "Test Light"))) eq_refl eq_refl).
  - exact (proj1 (proj2 (proj2
             (proj1 (proj2 (missing_broker_default Sample.host Sample.configNoBroker None
                              Sample.degraded (TurnOn 11 (js "Test Light"))))
                eq_refl eq_refl)))).
Defined.

(** C3, as stated, fails: for a configuration without mqtt.broker the
    constructor succeeds and [onStart] does construct the MQTT transport, on
    the default broker; the 'connect' listener then subscribes. *)
Lemma missing_broker_connects :
  mqtt_broker Sample.configNoBroker = None
  /\ fst (MegaDPlatform_new Sample.host Sample.configNoBroker)
     = Ok (Sample.created Sample.host Sample.configNoBroker)
  /\ mqttCalls (events (onStart None (Sample.created Sample.host Sample.configNoBroker)))
     = [ MqttConnect 0%nat (js "mqtt://localhost:1883")
           {| options_username := None; options_password := None |};
         MqttOn 0%nat (js "connect");
         MqttOn 0%nat (js "error");
         MqttOn 0%nat (js "message") ]
  /\ mqttClient (Sample.started Sample.host Sample.configNoBroker) = Some 0%nat
  /\ mqttCalls (events (onConnect (Sample.started Sample.host Sample.configNoBroker)))
     = [ MqttSubscribe 0%nat (js "alex/11") ].
Proof. repeat split; vm_compute; reflexivity. Qed.

(** C9 (amended): an empty [devices] list ends like a missing one.  On
    the platform built from either configuration, device creation registers
    exactly one light, the default one with id 11 and name "Bedroom Light",
    and leaves the same registry; so device creation never yields zero
    devices, and [onStart] has registered at least one light whenever it
    returns normally. *)
Theorem empty_devices_default
    (mb : Matterbridge) (cfg : MegaDConfig) (p_empty p_missing : Platform) :
  fst (MegaDPlatform_new mb (withDevices cfg (Some []))) = Ok p_empty ->
  fst (MegaDPlatform_new mb (withDevices cfg None)) = Ok p_missing ->
  registeredBy (events (createDevices p_empty)) = [megaDLight mb 11 (js "Bedroom Light")]
  /\ registeredBy (events (createDevices p_missing)) = [megaDLight mb 11 (js "Bedroom Light")]
  /\ registered (final (createDevices p_empty)) = registered (final (createDevices p_missing))
  /\ (acceptsDevice mb [] (megaDLight mb 11 (js "Bedroom Light")) = true ->
      registered (final (createDevices p_empty)) = [megaDLight mb 11 (js "Bedroom Light")])
  /\ softwareVersion (megaDLight mb 11 (js "Bedroom Light")) = 11
  /\ deviceName (megaDLight mb 11 (js "Bedroom Light")) = js "Bedroom Light"
  /\ (forall p, registeredBy (events (createDevices p)) <> [])
  /\ (forall reason p,
        result (onStart reason p) = Ok tt ->
        registeredBy (events (onStart reason p)) <> []).
Proof.
  intros He Hm.
  apply MegaDPlatform_new_Ok in He as (_ & _ & Hmb & _ & Hreg & _ & _ & _ & Hds).
  apply MegaDPlatform_new_Ok in Hm as (_ & _ & Hmb' & _ & Hreg' & _ & _ & _ & Hds').
  cbn [withDevices devices] in Hds, Hds'.
  assert (forall p, registeredBy (events (createDevices p)) <> []) as Hcreate.
  { intros p. rewrite createDevices_run. unfold events. cbn [snd].
    rewrite createDevicesEvents_registeredBy. apply lightsToCreate_not_nil. }
  assert (forall reason p,
             result (onStart reason p) = Ok tt ->
             registeredBy (events (onStart reason p)) <> []) as Hstart.
  { intros reason p Hok.
    destruct (onStart_cases reason p) as [(_ & -> & _)|(error & Hthrow & _)];
      [apply lightsToCreate_not_nil | congruence]. }
  rewrite !createDevices_run. unfold events at 1 2, final. cbn [fst snd with_registered registered].
  rewrite !createDevicesEvents_registeredBy, Hreg, Hreg'.
  unfold lightsToCreate. rewrite Hds, Hds', Hmb, Hmb'.
  cbn [defaultDevices map id name registerAll fold_left app].
  repeat split; try reflexivity; try assumption.
  intros ->. reflexivity.
Qed.

Lemma empty_devices_default_witness :
  registeredBy (events (createDevices (Sample.created Sample.host Sample.configEmptyDevices)))
  = [megaDLight Sample.host 11 (js "Bedroom Light")]
  /\ registeredBy (events (createDevices (Sample.created Sample.host Sample.configNoDevices)))
     = [megaDLight Sample.host 11 (js "Bedroom Light")].
Proof.
  split.
  - exact (proj1 (empty_devices_default Sample.host Sample.testConfig
                    (Sample.created Sample.host Sample.configEmptyDevices)
                    (Sample.created Sample.host Sample.configNoDevices)
                    eq_refl eq_refl)).
  - exact (proj1 (proj2 (empty_devices_default Sample.host Sample.testConfig
                           (Sample.created Sample.host Sample.configEmptyDevices)
                           (Sample.created Sample.host Sample.configNoDevices)
                           eq_refl eq_refl))).
Defined.

(** C9, as stated, fails: start-up can yield zero devices.  With an empty
    [devices] list and a broker URL on which [mqtt.connect] throws, [onStart]
    ends with the error before device creation. *)
Lemma startup_without_devices :
  devices Sample3.localhostBrokerNoDevices = Some []
  /\ fst (MegaDPlatform_new Sample3.strictHost Sample3.localhostBrokerNoDevices)
     = Ok (Sample.created Sample3.strictHost Sample3.localhostBrokerNoDevices)
  /\ result (onStart None (Sample.created Sample3.strictHost
                             Sample3.localhostBrokerNoDevices))
     = Throw (js "Missing protocol")
  /\ registeredBy (events (onStart None (Sample.created Sample3.strictHost
                                           Sample3.localhostBrokerNoDevices))) = []
  /\ registered (Sample.started Sample3.strictHost Sample3.localhostBrokerNoDevices) = [].
Proof. repeat split; vm_compute; reflexivity. Qed.

(** C10: the constructor throws, with the version message and before it
    logs anything, when the framework's version check is absent, is not a
    function, or rejects "3.0.7"; it returns a platform exactly when the
    check is a function that accepts "3.0.7". *)
Theorem constructor_version_check (mb : Matterbridge) (cfg : MegaDConfig) :
  match verifyMatterbridgeVersion mb with
  | Method f =>
      if f (js "3.0.7")
      then exists p, fst (MegaDPlatform_new mb cfg) = Ok p
      else MegaDPlatform_new mb cfg = (Throw (versionError mb), [])
  | Undefined | NotAFunction =>
      MegaDPlatform_new mb cfg = (Throw (versionError mb), [])
  end.
Proof.
  unfold MegaDPlatform_new, versionGuard.
  destruct (verifyMatterbridgeVersion mb) as [| |f]; try reflexivity.
  destruct (f (js "3.0.7")); cbn [negb fst]; [|reflexivity].
  eexists. reflexivity.
Qed.

(** The case of the test suite: a framework at version 2.0.0. *)
Example constructor_oldHost :
  MegaDPlatform_new Sample.oldHost Sample.testConfig
  = (Throw (js "This plugin requires Matterbridge version >= " ++ dquote ++ js "3.0.7"
            ++ dquote ++ js ". Please update Matterbridge from 2.0.0 to the latest version in the frontend."
            ++ dquote), []).
Proof. reflexivity. Qed.

Example constructor_host :
  logged (snd (MegaDPlatform_new Sample.host Sample.testConfig))
  = [ (Info, js "Initializing MegaD Platform...");
      (Info, js "MQTT Broker: mqtt://localhost:1883");
      (Info, js "Configured devices: 1") ].
Proof. reflexivity. Qed.

(** ** Shutdown *)

Lemma onShutdown_run (reason : option jsstring) (p : Platform) :
  onShutdown reason p
  = (Ok tt,
     (let q := with_registered
                 match mqttClient p with
                 | Some _ => with_mqttClient p None
                 | None => p
                 end
                 (if shutdownClearsRegistry (matterbridge p) then [] else registered p) in
      match unregisterOnShutdown (config p) with
      | Some true => with_registered q []
      | _ => q
      end),
     match mqttClient p with
     | Some c => [Log Info (js "Disconnecting MQTT client..."); MqttEndAsync c]
     | None => []
     end
     ++ [ SuperOnShutdown reason;
          Log Info (js "onShutdown called with reason: " ++ reasonOrNone reason) ]
     ++ match unregisterOnShutdown (config p) with
        | Some true => [UnregisterAllDevices]
        | _ => []
        end).
Proof.
  unfold onShutdown, bind, read, log_info, emit, set_mqttClient, unregisterAllDevices,
    superOnShutdown, ret.
  destruct (mqttClient p) as [c|];
    cbn [with_mqttClient with_registered config matterbridge registered];
    destruct (unregisterOnShutdown (config p)) as [[|]|]; reflexivity.
Qed.

(** After [onShutdown] the platform has no MQTT client. *)
Lemma onShutdown_clears_client (reason : option jsstring) (p : Platform) :
  mqttClient (final (onShutdown reason p)) = None.
Proof.
  rewrite onShutdown_run. unfold final. cbn [fst snd].
  destruct (mqttClient p) eqn:E; destruct (unregisterOnShutdown (config p)) as [[|]|];
    cbn [with_registered with_mqttClient mqttClient]; auto.
Qed.

Lemma ended_app (a b : list Event) : ended (a ++ b) = ended a ++ ended b.
Proof. apply flat_map_app. Qed.

Lemma onShutdown_ended (reason : option jsstring) (p : Platform) :
  ended (events (onShutdown reason p))
  = match mqttClient p with Some c => [c] | None => [] end.
Proof.
  rewrite onShutdown_run. unfold events. cbn [snd].
  destruct (mqttClient p); destruct (unregisterOnShutdown (config p)) as [[|]|]; reflexivity.
Qed.

(** C5: from any state, two [onShutdown] calls in a row both return
    normally; the first leaves the platform without MQTT client, so the
    second, guarded by the null test, ends no session and makes no call on
    an MQTT client.  Over both calls a session is ended at most once: the
    one of the client the platform had, if it had one. *)
Theorem onShutdown_twice (p : Platform) (reason1 reason2 : option jsstring) :
  result (onShutdown reason1 p) = Ok tt
  /\ result (onShutdown reason2 (final (onShutdown reason1 p))) = Ok tt
  /\ mqttClient (final (onShutdown reason1 p)) = None
  /\ ended (events (onShutdown reason2 (final (onShutdown reason1 p)))) = []
  /\ mqttCalls (events (onShutdown reason2 (final (onShutdown reason1 p)))) = []
  /\ ended (events (onShutdown reason1 p)
            ++ events (onShutdown reason2 (final (onShutdown reason1 p))))
     = match mqttClient p with Some c => [c] | None => [] end.
Proof.
  pose proof (onShutdown_clears_client reason1 p) as Hc.
  pose proof (onShutdown_ended reason2 (final (onShutdown reason1 p))) as He2.
  rewrite Hc in He2.
  split; [now rewrite onShutdown_run|].
  split; [now rewrite (onShutdown_run reason2)|].
  split; [assumption|]. split; [assumption|]. split.
  - rewrite (onShutdown_run reason2). unfold events at 1. cbn [snd]. rewrite Hc.
    destruct (unregisterOnShutdown _) as [[|]|]; reflexivity.
  - rewrite ended_app, He2, onShutdown_ended. apply List.app_nil_r.
Qed.

(** * Further properties of the module *)

(** ** Inbound messages: what the handler never does *)

Lemma applyState_frame (deviceId : Z) (isOn : bool) (p : Platform) :
  result (applyState deviceId isOn p) = Ok tt
  /\ final (applyState deviceId isOn p) = p
  /\ mqttCalls (events (applyState deviceId isOn p)) = []
  /\ registeredBy (events (applyState deviceId isOn p)) = []
  /\ (List.length (written (events (applyState deviceId isOn p))) <= 1)%nat.
Proof.
  destruct (findDevice deviceId p) as [device|] eqn:E.
  - rewrite (applyState_known _ _ _ _ E).
    destruct (hasClusterServer device (js "onOff")); cbn; repeat split; lia.
  - rewrite (applyState_unknown _ _ _ E). cbn. repeat split; lia.
Qed.

(** X1: whatever the topic and the payload, [handleMqttMessage] returns
    normally and leaves the platform as it is; it makes no call on the MQTT
    library, registers nothing and writes at most one attribute. *)
Theorem handleMqttMessage_frame (topic message : jsstring) (p : Platform) :
  result (handleMqttMessage topic message p) = Ok tt
  /\ final (handleMqttMessage topic message p) = p
  /\ mqttCalls (events (handleMqttMessage topic message p)) = []
  /\ registeredBy (events (handleMqttMessage topic message p)) = []
  /\ (List.length (written (events (handleMqttMessage topic message p))) <= 1)%nat.
Proof.
  rewrite handleMqttMessage_decodeInbound. unfold bind. cbn [emit].
  destruct (decodeInbound topic message) as [[deviceId isOn]|].
  - destruct (applyState_frame deviceId isOn p) as (Hr & Hf & Hm & Hg & Hw).
    destruct (applyState deviceId isOn p) as [[r q] evs].
    unfold result, final, events in *. cbn [fst snd] in *. subst.
    cbn. repeat split; assumption.
  - cbn. repeat split; lia.
Qed.

(** X2: an attribute write of [handleMqttMessage] is always the write of
    onOff.onOff, with the decoded state, on the first registered device
    whose uniqueId is "megad_<decoded id>", and that device serves the onOff
    cluster. *)
Theorem handleMqttMessage_write_sound
    (topic payload : jsstring) (p : Platform) (e : Event) :
  In e (written (events (handleMqttMessage topic payload p))) ->
  exists deviceId device,
    decodeInbound topic payload = Some (deviceId, streq (trim payload) (js "1"))
    /\ findDevice deviceId p = Some device
    /\ In device (registered p)
    /\ uniqueId device = lookupKey deviceId
    /\ hasClusterServer device (js "onOff") = true
    /\ e = SetAttribute device (js "onOff") (js "onOff") (streq (trim payload) (js "1")).
Proof.
  rewrite handleMqttMessage_decodeInbound. unfold bind. cbn [emit].
  destruct (decodeInbound topic payload) as [[deviceId isOn]|] eqn:Hd;
    [|cbn; tauto].
  pose proof Hd as Hd'. apply decodeInbound_Some in Hd' as (seg & _ & _ & ->).
  destruct (findDevice deviceId p) as [device|] eqn:E.
  - rewrite (applyState_known _ _ _ _ E).
    destruct (hasClusterServer device (js "onOff")) eqn:Hc; cbn; [|tauto].
    intros [<-|[]]. exists deviceId, device.
    pose proof E as E'. unfold findDevice in E'. apply find_some in E' as [Hin Heq].
    apply streq_eq in Heq. repeat split; assumption.
  - rewrite (applyState_unknown _ _ _ E). cbn. tauto.
Qed.

Lemma handleMqttMessage_write_sound_witness :
  exists deviceId device,
    decodeInbound (js "alex/11") (js " 1 ") = Some (deviceId, streq (trim (js " 1 ")) (js "1"))
    /\ findDevice deviceId (Sample.started Sample.host Sample.testConfig) = Some device
    /\ In device (registered (Sample.started Sample.host Sample.testConfig))
    /\ uniqueId device = lookupKey deviceId
    /\ hasClusterServer device (js "onOff") = true
    /\ SetAttribute (megaDLight Sample.host 11 (js "Test Light")) (js "onOff") (js "onOff") true
       = SetAttribute device (js "onOff") (js "onOff") (streq (trim (js " 1 ")) (js "1")).
Proof.
  apply (handleMqttMessage_write_sound (js "alex/11") (js " 1 ")
           (Sample.started Sample.host Sample.testConfig)).
  vm_compute. left. reflexivity.
Defined.

(** X3: a decoded update for a registered device that serves the onOff
    cluster logs the received line and the "Updating device" line and writes
    onOff.onOff once, with the decoded state; the platform is unchanged. *)
Theorem knownDevice_written
    (topic payload : jsstring) (deviceId : Z) (isOn : bool) (p : Platform)
    (device : Endpoint) :
  decodeInbound topic payload = Some (deviceId, isOn) ->
  safe_integer deviceId ->
  findDevice deviceId p = Some device ->
  hasClusterServer device (js "onOff") = true ->
  handleMqttMessage topic payload p
  = (Ok tt, p,
     [ received topic payload;
       Log Info (js "Updating device " ++ Number_toString deviceId ++ js " state to: "
                 ++ (if isOn then js "ON" else js "OFF"));
       SetAttribute device (js "onOff") (js "onOff") isOn ]).
Proof.
  intros Hd _ Hf Hc. rewrite handleMqttMessage_decodeInbound, Hd.
  unfold bind. cbn [emit]. now rewrite (applyState_known _ _ _ _ Hf), Hc.
Qed.

Lemma knownDevice_written_witness :
  handleMqttMessage (js "alex/11") (js "0") (Sample.started Sample.host Sample.testConfig)
  = (Ok tt, Sample.started Sample.host Sample.testConfig,
     [ received (js "alex/11") (js "0");
       Log Info (js "Updating device 11 state to: OFF");
       SetAttribute (megaDLight Sample.host 11 (js "Test Light"))
                    (js "onOff") (js "onOff") false ]).
Proof.
  apply (knownDevice_written (js "alex/11") (js "0") 11 false
           (Sample.started Sample.host Sample.testConfig)
           (megaDLight Sample.host 11 (js "Test Light")));
    [reflexivity | safe | reflexivity | reflexivity].
Defined.

(** ** The payload test *)

Lemma trimStart_decompose (s : jsstring) :
  exists a, s = a ++ trimStart s /\ forallb isWhiteSpace a = true.
Proof.
  induction s as [|c r (a & Ha & Hws)]; [now exists []|].
  cbn [trimStart]. destruct (isWhiteSpace c) eqn:Hc.
  - exists (c :: a). cbn [app forallb]. rewrite Hc, Hws. split; [congruence|reflexivity].
  - now exists [].
Qed.

Lemma trimStart_skip (a s : jsstring) :
  forallb isWhiteSpace a = true -> trimStart (a ++ s) = trimStart s.
Proof.
  induction a as [|c a IH]; [reflexivity|]. cbn [forallb app trimStart].
  intros H. apply andb_true_iff in H as [-> H]. auto.
Qed.

Lemma forallb_rev (f : N -> bool) (l : jsstring) :
  forallb f (rev l) = forallb f l.
Proof.
  induction l as [|c l IH]; [reflexivity|].
  cbn [rev forallb]. rewrite forallb_app, IH. cbn [forallb].
  destruct (f c), (forallb f l); reflexivity.
Qed.

(** [trim] yields the one-character string "1" exactly on a "1" with
    white space alone on either side. *)
Lemma trim_one (s : jsstring) :
  trim s = js "1" <->
  exists a b, s = a ++ js "1" ++ b
              /\ forallb isWhiteSpace a = true /\ forallb isWhiteSpace b = true.
Proof.
  unfold trim, trimEnd. split.
  - intros H. destruct (trimStart_decompose s) as (a & Hs & Ha).
    assert (trimStart (rev (trimStart s)) = js "1") as H'.
    { rewrite <- (rev_involutive (trimStart (rev (trimStart s)))), H. reflexivity. }
    destruct (trimStart_decompose (rev (trimStart s))) as (b & Hb & Hws).
    rewrite H' in Hb. exists a, (rev b). split; [|split].
    + rewrite Hs at 1. f_equal.
      rewrite <- (rev_involutive (trimStart s)), Hb, rev_app_distr. reflexivity.
    + assumption.
    + now rewrite forallb_rev.
  - intros (a & b & -> & Ha & Hb).
    rewrite (trimStart_skip a _ Ha). change (js "1" ++ b) with (49%N :: b).
    cbn [trimStart]. change (isWhiteSpace 49) with false. cbn iota.
    cbn [rev]. rewrite trimStart_skip by now rewrite forallb_rev. reflexivity.
Qed.

(** X4: the state a message decodes to is ON exactly when its payload is
    the character "1" with nothing but white space (in the sense of
    String.prototype.trim) before and after it; every other payload decodes
    to OFF. *)
Theorem decoded_state_on (topic payload : jsstring) (deviceId : Z) (isOn : bool) :
  decodeInbound topic payload = Some (deviceId, isOn) ->
  (isOn = true <->
   exists a b, payload = a ++ js "1" ++ b
               /\ forallb isWhiteSpace a = true /\ forallb isWhiteSpace b = true).
Proof.
  intros H. apply decodeInbound_Some in H as (_ & _ & _ & ->).
  rewrite streq_eq. apply trim_one.
Qed.

Lemma decoded_state_on_witness :
  true = true <->
  exists a b, js " 1 " = a ++ js "1" ++ b
              /\ forallb isWhiteSpace a = true /\ forallb isWhiteSpace b = true.
Proof.
  apply (decoded_state_on (js "alex/11") (js " 1 ") 11 true). reflexivity.
Defined.

(** ** The topic test *)

Lemma split_length (sep : N) (s : jsstring) :
  List.length (split sep s) = S (List.length (filter (N.eqb sep) s)).
Proof.
  induction s as [|c r IH]; [reflexivity|]. cbn [split filter].
  rewrite (N.eqb_sym sep c). destruct (N.eqb c sep).
  - cbn [List.length]. now rewrite IH.
  - destruct (split sep r) as [|seg segs] eqn:E; [now apply split_not_nil in E|].
    cbn [List.length] in *. exact IH.
Qed.

(** X5: a topic is decoded only if it holds exactly one slash: with none,
    or with two or more (an empty topic, a trailing slash, a deeper path),
    the message is logged and dropped. *)
Theorem topic_needs_one_slash (topic payload : jsstring) (p : Platform) :
  slashes topic <> 1%nat ->
  decodeInbound topic payload = None
  /\ handleMqttMessage topic payload p = (Ok tt, p, [received topic payload]).
Proof.
  intros H.
  assert (decodeInbound topic payload = None) as Hd.
  { apply decodeInbound_None. intros seg Hs.
    pose proof (split_length (ch "/") topic) as Hl. rewrite Hs in Hl.
    cbn [List.length] in Hl. unfold slashes in H. congruence. }
  split; [assumption|]. now rewrite handleMqttMessage_decodeInbound, Hd.
Qed.

Lemma topic_needs_one_slash_witness :
  decodeInbound (js "alex/11/state") (js "1") = None
  /\ handleMqttMessage (js "alex/11/state") (js "1")
       (Sample.started Sample.host Sample.testConfig)
     = (Ok tt, Sample.started Sample.host Sample.testConfig,
        [received (js "alex/11/state") (js "1")]).
Proof.
  apply (topic_needs_one_slash (js "alex/11/state") (js "1")
           (Sample.started Sample.host Sample.testConfig)).
  vm_compute. discriminate.
Defined.

(** ** Commands *)

(** What a command handler does, by the state of the client. *)
Lemma executeCommandHandler_run (h : CommandHandler) (p : Platform) :
  executeCommandHandler h p
  = (Ok tt, p,
     Log Info (match h with
               | TurnOn deviceId deviceName =>
                   js "Turning ON device " ++ Number_toString deviceId
                   ++ js " (" ++ deviceName ++ js ")"
               | TurnOff deviceId deviceName =>
                   js "Turning OFF device " ++ Number_toString deviceId
                   ++ js " (" ++ deviceName ++ js ")"
               end)
     :: match mqttClient p with
        | None => [Log Error (js "MQTT client not connected")]
        | Some c =>
            let command :=
              match h with
              | TurnOn deviceId _ => Number_toString deviceId ++ js ":1"
              | TurnOff deviceId _ => Number_toString deviceId ++ js ":0"
              end in
            [ Log Info (js "Publishing to alex/cmd: " ++ command);
              MqttPublish c (js "alex/cmd") command ]
        end).
Proof.
  destruct (mqttClient p) as [c|] eqn:E; destruct h; cbn [executeCommandHandler];
    unfold bind, log_info, emit;
    rewrite ?(sendMqttCommand_connected _ _ _ _ E), ?(sendMqttCommand_disconnected _ _ _ E);
    reflexivity.
Qed.

(** The command topic is not a state topic. *)
Lemma decodeInbound_command_topic (payload : jsstring) :
  decodeInbound (js "alex/cmd") payload = None.
Proof. reflexivity. Qed.

(** X6: a command is never read back as a state report: whatever a command
    handler publishes, [handleMqttMessage] on that message (on any platform)
    logs it and drops it. *)
Theorem command_echo_dropped
    (h : CommandHandler) (p q : Platform) (topic message : jsstring) :
  In (topic, message) (published (events (executeCommandHandler h p))) ->
  handleMqttMessage topic message q = (Ok tt, q, [received topic message]).
Proof.
  rewrite executeCommandHandler_run. unfold events. cbn [snd]. intros H.
  destruct (mqttClient p) as [c|]; cbn in H; [|tauto].
  destruct H as [H|[]]. injection H as <- <-.
  now rewrite handleMqttMessage_decodeInbound, decodeInbound_command_topic.
Qed.

Lemma command_echo_dropped_witness :
  handleMqttMessage (js "alex/cmd") (js "11:1") (Sample.started Sample.host Sample.testConfig)
  = (Ok tt, Sample.started Sample.host Sample.testConfig,
     [received (js "alex/cmd") (js "11:1")]).
Proof.
  apply (command_echo_dropped (TurnOn 11 (js "Test Light"))
           (Sample.started Sample.host Sample.testConfig)
           (Sample.started Sample.host Sample.testConfig)).
  vm_compute. left. reflexivity.
Defined.

(** X7: in every state a command handler returns normally and leaves the
    platform as it is: it writes no attribute (the state of the device is
    not updated when the command is sent), registers nothing, and publishes
    at most one message, on the topic "alex/cmd". *)
Theorem executeCommandHandler_frame (h : CommandHandler) (p : Platform) :
  result (executeCommandHandler h p) = Ok tt
  /\ final (executeCommandHandler h p) = p
  /\ written (events (executeCommandHandler h p)) = []
  /\ registeredBy (events (executeCommandHandler h p)) = []
  /\ (List.length (published (events (executeCommandHandler h p))) <= 1)%nat
  /\ (forall topic message,
        In (topic, message) (published (events (executeCommandHandler h p))) ->
        topic = js "alex/cmd").
Proof.
  rewrite executeCommandHandler_run. unfold result, final, events. cbn [fst snd].
  destruct (mqttClient p) as [c|]; cbn; repeat split; try lia; try tauto.
  intros topic message [H|[]]. now injection H as <- <-.
Qed.

(** ** Ids in topics, payloads and keys *)

Lemma Number_toString_inj (a b : Z) : Number_toString a = Number_toString b -> a = b.
Proof.
  intros H. pose proof (parseInt_Number_toString a) as Ha.
  rewrite H, parseInt_Number_toString in Ha. congruence.
Qed.

(** X8: two devices with different ids share neither a state topic, nor a
    storage key, nor the uniqueId the state lookup asks for, nor a command
    payload. *)
Theorem ids_kept_apart (mb : Matterbridge) (a b : Z) (na nb : jsstring)
    (p : Platform) (c : Client) :
  safe_integer a -> safe_integer b -> a <> b -> mqttClient p = Some c ->
  stateTopic a <> stateTopic b
  /\ lookupKey a <> lookupKey b
  /\ uniqueStorageKey (megaDLight mb a na) <> uniqueStorageKey (megaDLight mb b nb)
  /\ published (events (executeCommandHandler (TurnOn a na) p))
     <> published (events (executeCommandHandler (TurnOn b nb) p))
  /\ published (events (executeCommandHandler (TurnOff a na) p))
     <> published (events (executeCommandHandler (TurnOff b nb) p)).
Proof.
  intros _ _ Hab Hc.
  rewrite !executeCommandHandler_run, Hc. unfold events. cbn [snd].
  unfold stateTopic, lookupKey. cbn [uniqueStorageKey megaDLight].
  repeat split; intros H; apply Hab, Number_toString_inj.
  - now apply app_inv_head in H.
  - now apply app_inv_head in H.
  - now apply app_inv_head in H.
  - cbn in H. injection H as H. now apply app_inv_tail in H.
  - cbn in H. injection H as H. now apply app_inv_tail in H.
Qed.

Lemma ids_kept_apart_witness :
  stateTopic 11 <> stateTopic 12
  /\ lookupKey 11 <> lookupKey 12
  /\ uniqueStorageKey (megaDLight Sample.host 11 (js "Bedroom Light"))
     <> uniqueStorageKey (megaDLight Sample.host 12 (js "Kitchen Light"))
  /\ published (events (executeCommandHandler (TurnOn 11 (js "Bedroom Light"))
                          (Sample.started Sample.host Sample2.twoLights)))
     <> published (events (executeCommandHandler (TurnOn 12 (js "Kitchen Light"))
                             (Sample.started Sample.host Sample2.twoLights)))
  /\ published (events (executeCommandHandler (TurnOff 11 (js "Bedroom Light"))
                          (Sample.started Sample.host Sample2.twoLights)))
     <> published (events (executeCommandHandler (TurnOff 12 (js "Kitchen Light"))
                             (Sample.started Sample.host Sample2.twoLights))).
Proof.
  apply (ids_kept_apart Sample.host 11 12 (js "Bedroom Light") (js "Kitchen Light")
           (Sample.started Sample.host Sample2.twoLights) 0%nat);
    [safe | safe | discriminate | reflexivity].
Defined.

(** ** Life cycle *)

Lemma ended_createDevicesEvents (p : Platform) : ended (createDevicesEvents p) = [].
Proof.
  unfold createDevicesEvents.
  destruct (devices (megaDConfig p)) as [[|d ds]|]; try reflexivity.
  generalize (d :: ds) as l. induction l as [|x l IH]; [reflexivity|].
  cbn [flat_map]. rewrite ended_app, IH. reflexivity.
Qed.

(** X9: [onStart] is not idempotent.  When [mqtt.connect] returns, a
    second call on the same platform connects a second client and stores it
    in place of the first, without ending the first; it calls
    [registerDevice] for every light a second time; and a later [onShutdown]
    ends the second client only. *)
Theorem onStart_twice
    (mb : Matterbridge) (cfg : MegaDConfig) (p : Platform)
    (reason1 reason2 reason3 : option jsstring) :
  fst (MegaDPlatform_new mb cfg) = Ok p ->
  connectError mb (if truthy (mqtt_broker cfg) then str (mqtt_broker cfg)
                   else defaultBroker) = None ->
  mqttClient (final (onStart reason1 p)) = Some (clients p)
  /\ mqttClient (final (onStart reason2 (final (onStart reason1 p)))) = Some (S (clients p))
  /\ mqttCalls (events (onStart reason2 (final (onStart reason1 p))))
     = [ MqttConnect (S (clients p))
           (if truthy (mqtt_broker cfg) then str (mqtt_broker cfg) else defaultBroker)
           (connectOptions cfg);
         MqttOn (S (clients p)) (js "connect");
         MqttOn (S (clients p)) (js "error");
         MqttOn (S (clients p)) (js "message") ]
  /\ ended (events (onStart reason1 p)
            ++ events (onStart reason2 (final (onStart reason1 p)))) = []
  /\ registeredBy (events (onStart reason2 (final (onStart reason1 p))))
     = registeredBy (events (onStart reason1 p))
  /\ registeredBy (events (onStart reason1 p)) = lightsToCreate p
  /\ ended (events (onShutdown reason3 (final (onStart reason2 (final (onStart reason1 p))))))
     = [S (clients p)].
Proof.
  intros Hnew Hc.
  pose proof (MegaDPlatform_new_broker _ _ _ Hnew) as Hb.
  apply MegaDPlatform_new_Ok in Hnew as (_ & _ & Hmb & _ & _ & Hbroker & Hu & Hpw & _).
  assert (str (mqtt_broker (megaDConfig p))
          = (if truthy (mqtt_broker cfg) then str (mqtt_broker cfg) else defaultBroker))
    as Hstr by now rewrite Hbroker.
  rewrite <- Hstr, <- Hmb in Hc.
  rewrite onShutdown_ended.
  rewrite (onStart_configured reason1 p Hb Hc).
  change (final (Ok tt, ?s, ?e)) with s. change (events (Ok tt, ?s, ?e)) with e.
  set (s1 := with_registered _ _).
  assert (truthy (mqtt_broker (megaDConfig s1)) = true) as Hb1 by exact Hb.
  assert (connectError (matterbridge s1) (str (mqtt_broker (megaDConfig s1))) = None)
    as Hc1 by exact Hc.
  rewrite (onStart_configured reason2 s1 Hb1 Hc1).
  change (final (Ok tt, ?s, ?e)) with s. change (events (Ok tt, ?s, ?e)) with e.
  rewrite !ended_app, !mqttCalls_app, !registeredBy_app, !createDevicesEvents_mqttCalls,
    !ended_createDevicesEvents, !createDevicesEvents_registeredBy.
  subst s1. cbn [with_registered with_mqttClient with_clients mqttClient megaDConfig
                   registered clients].
  unfold connectOptions. rewrite Hstr, Hu, Hpw.
  repeat split; reflexivity.
Qed.

Lemma onStart_twice_witness :
  mqttClient (final (onStart None (final (onStart None
                (Sample.created Sample.host Sample.testConfig))))) = Some 1%nat
  /\ ended (events (onShutdown None (final (onStart None (final (onStart None
                (Sample.created Sample.host Sample.testConfig))))))) = [1%nat].
Proof.
  split.
  - exact (proj1 (proj2 (onStart_twice Sample.host Sample.testConfig
                           (Sample.created Sample.host Sample.testConfig)
                           None None None eq_refl eq_refl))).
  - exact (proj2 (proj2 (proj2 (proj2 (proj2 (proj2
             (onStart_twice Sample.host Sample.testConfig
                (Sample.created Sample.host Sample.testConfig)
                None None None eq_refl eq_refl))))))).
Defined.

(** X10: [onShutdown] after [onStart], whether [onStart] returned or
    ended with an error of [mqtt.connect], returns normally.  It ends the
    client [onStart] created (none when [mqtt.connect] threw), then calls
    the framework's own shutdown, then, only when the framework's config has
    unregisterOnShutdown === true, unregisters all devices.  It leaves the
    platform without client. *)
Theorem start_then_shutdown
    (mb : Matterbridge) (cfg : MegaDConfig) (p : Platform)
    (reason1 reason2 : option jsstring) :
  fst (MegaDPlatform_new mb cfg) = Ok p ->
  result (onShutdown reason2 (final (onStart reason1 p))) = Ok tt
  /\ calls (events (onShutdown reason2 (final (onStart reason1 p))))
     = match connectError mb (if truthy (mqtt_broker cfg) then str (mqtt_broker cfg)
                              else defaultBroker) with
       | None => [MqttEndAsync (clients p)]
       | Some _ => []
       end
       ++ [SuperOnShutdown reason2]
       ++ match unregisterOnShutdown cfg with
          | Some true => [UnregisterAllDevices]
          | _ => []
          end
  /\ mqttClient (final (onShutdown reason2 (final (onStart reason1 p)))) = None.
Proof.
  intros Hnew.
  pose proof (MegaDPlatform_new_broker _ _ _ Hnew) as Hb.
  apply MegaDPlatform_new_Ok in Hnew as (_ & Hnone & Hmb & Hcfg & _ & Hbroker & _).
  assert (str (mqtt_broker (megaDConfig p))
          = (if truthy (mqtt_broker cfg) then str (mqtt_broker cfg) else defaultBroker))
    as Hstr by now rewrite Hbroker.
  rewrite <- Hstr, <- Hmb.
  pose proof (onShutdown_clears_client reason2 (final (onStart reason1 p))) as Hclear.
  split; [now rewrite onShutdown_run|]. split; [|exact Hclear].
  destruct (connectError (matterbridge p) (str (mqtt_broker (megaDConfig p))))
    as [error|] eqn:Hc.
  - rewrite (onStart_throws reason1 p error Hb Hc).
    change (final (Throw error, ?s, ?e)) with s.
    rewrite onShutdown_run. unfold events. cbn [snd]. rewrite Hnone, Hcfg.
    destruct (unregisterOnShutdown cfg) as [[|]|]; reflexivity.
  - rewrite (onStart_configured reason1 p Hb Hc).
    change (final (Ok tt, ?s, ?e)) with s.
    rewrite onShutdown_run. unfold events. cbn [snd].
    cbn [with_registered with_mqttClient with_clients mqttClient config].
    rewrite Hcfg. destruct (unregisterOnShutdown cfg) as [[|]|]; reflexivity.
Qed.

Lemma start_then_shutdown_witness :
  calls (events (onShutdown (Some (js "Jest"))
                   (final (onStart None (Sample.created Sample.host Sample2.twoLights)))))
  = [ MqttEndAsync 0%nat; SuperOnShutdown (Some (js "Jest")); UnregisterAllDevices ].
Proof.
  exact (proj1 (proj2 (start_then_shutdown Sample.host Sample2.twoLights
                         (Sample.created Sample.host Sample2.twoLights)
                         None (Some (js "Jest")) eq_refl))).
Defined.

Lemma onShutdown_megaDConfig (reason : option jsstring) (p : Platform) :
  megaDConfig (final (onShutdown reason p)) = megaDConfig p.
Proof.
  rewrite onShutdown_run. unfold final. cbn [fst snd].
  destruct (mqttClient p); destruct (unregisterOnShutdown (config p)) as [[|]|];
    reflexivity.
Qed.

Lemma onConnect_disconnected (p : Platform) :
  mqttClient p = None ->
  onConnect p
  = (Ok tt, p,
     Log Info (js "Connected to MQTT broker")
     :: map (fun d => Log Info (js "Subscribed to " ++ stateTopic (id d)))
            (match devices (megaDConfig p) with Some ds => ds | None => [] end)).
Proof.
  intros H. rewrite onConnect_run, H.
  assert (forall l : list DeviceConfig,
             flat_map (fun d => [] ++ [Log Info (js "Subscribed to alex/"
                                                 ++ Number_toString (id d))]) l
             = map (fun d => Log Info (js "Subscribed to " ++ stateTopic (id d))) l) as E.
  { induction l as [|d l IH]; [reflexivity|]. cbn [flat_map map]. now rewrite <- IH. }
  now rewrite E.
Qed.

(** X11: after [onShutdown], from any state, a command handler publishes
    nothing and logs "MQTT client not connected" at error level; and the
    'connect' listener, should the ended client still fire it, subscribes to
    nothing although it logs "Subscribed to alex/<id>" for each configured
    device. *)
Theorem after_shutdown (reason : option jsstring) (p : Platform) (h : CommandHandler) :
  published (events (executeCommandHandler h (final (onShutdown reason p)))) = []
  /\ loggedAt Error (events (executeCommandHandler h (final (onShutdown reason p))))
     = [js "MQTT client not connected"]
  /\ mqttCalls (events (onConnect (final (onShutdown reason p)))) = []
  /\ loggedAt Info (events (onConnect (final (onShutdown reason p))))
     = js "Connected to MQTT broker"
       :: map (fun d => js "Subscribed to " ++ stateTopic (id d))
              (match devices (megaDConfig p) with Some ds => ds | None => [] end).
Proof.
  pose proof (onShutdown_clears_client reason p) as Hc.
  pose proof (onShutdown_megaDConfig reason p) as Hm.
  rewrite executeCommandHandler_run, Hc.
  rewrite (onConnect_disconnected _ Hc), Hm.
  unfold events. cbn [snd].
  split; [destruct h; reflexivity|]. split; [destruct h; reflexivity|].
  induction (match devices (megaDConfig p) with Some ds => ds | None => [] end)
    as [|d l [IH1 IH2]]; [split; reflexivity|].
  split.
  - exact IH1.
  - cbn [map]. cbn in IH2 |- *. injection IH2 as IH2. now rewrite IH2.
Qed.

(** X12: the default light of an empty [devices] list gets no state
    topic.  When [mqtt.connect] returns: with [devices] empty, start-up
    calls [registerDevice] for the light 11 but the 'connect' listener
    subscribes to nothing; with [devices] missing, it calls [registerDevice]
    for the same light and the listener subscribes to "alex/11". *)
Theorem default_light_subscription
    (mb : Matterbridge) (cfg : MegaDConfig) (p_empty p_missing : Platform)
    (reason : option jsstring) :
  fst (MegaDPlatform_new mb (withDevices cfg (Some []))) = Ok p_empty ->
  fst (MegaDPlatform_new mb (withDevices cfg None)) = Ok p_missing ->
  connectError mb (if truthy (mqtt_broker cfg) then str (mqtt_broker cfg)
                   else defaultBroker) = None ->
  registeredBy (events (onStart reason p_empty)) = [megaDLight mb 11 (js "Bedroom Light")]
  /\ mqttCalls (events (onConnect (final (onStart reason p_empty)))) = []
  /\ registeredBy (events (onStart reason p_missing)) = [megaDLight mb 11 (js "Bedroom Light")]
  /\ mqttCalls (events (onConnect (final (onStart reason p_missing))))
     = [MqttSubscribe (clients p_missing) (stateTopic 11)].
Proof.
  intros He Hm Hc.
  pose proof (MegaDPlatform_new_broker _ _ _ He) as Hbe.
  pose proof (MegaDPlatform_new_broker _ _ _ Hm) as Hbm.
  apply MegaDPlatform_new_Ok in He as (_ & _ & Hmb & _ & _ & Hbr & _ & _ & Hds).
  apply MegaDPlatform_new_Ok in Hm as (_ & _ & Hmb' & _ & _ & Hbr' & _ & _ & Hds').
  cbn [withDevices devices] in Hds, Hds'.
  change (mqtt_broker (withDevices cfg ?d)) with (mqtt_broker cfg) in Hbr, Hbr'.
  assert (connectError (matterbridge p_empty) (str (mqtt_broker (megaDConfig p_empty)))
          = None) as Hce by (rewrite Hmb, Hbr; exact Hc).
  assert (connectError (matterbridge p_missing) (str (mqtt_broker (megaDConfig p_missing)))
          = None) as Hcm by (rewrite Hmb', Hbr'; exact Hc).
  rewrite (onStart_configured reason p_empty Hbe Hce),
    (onStart_configured reason p_missing Hbm Hcm).
  change (final (Ok tt, ?s, ?e)) with s. change (events (Ok tt, ?s, ?e)) with e.
  rewrite !registeredBy_app, !createDevicesEvents_registeredBy.
  rewrite !onConnect_run. unfold events. cbn [snd].
  cbn [with_registered with_mqttClient with_clients mqttClient megaDConfig registered].
  unfold lightsToCreate. rewrite Hds, Hds', Hmb, Hmb'.
  repeat split; reflexivity.
Qed.

Lemma default_light_subscription_witness :
  mqttCalls (events (onConnect (Sample.started Sample.host Sample.configEmptyDevices))) = []
  /\ mqttCalls (events (onConnect (Sample.started Sample.host Sample.configNoDevices)))
     = [MqttSubscribe 0%nat (js "alex/11")].
Proof.
  split.
  - exact (proj1 (proj2 (default_light_subscription Sample.host Sample.testConfig
                           (Sample.created Sample.host Sample.configEmptyDevices)
                           (Sample.created Sample.host Sample.configNoDevices)
                           None eq_refl eq_refl eq_refl))).
  - exact (proj2 (proj2 (proj2 (default_light_subscription Sample.host Sample.testConfig
                                  (Sample.created Sample.host Sample.configEmptyDevices)
                                  (Sample.created Sample.host Sample.configNoDevices)
                                  None eq_refl eq_refl eq_refl)))).
Defined.

(** X13: for a non-empty [devices] list [createDevices] calls
    [registerDevice] once per entry, in the order of the list and without
    leaving out entries with equal ids or names: the lights it hands over
    carry the ids, the names and the storage keys "megad_<id>" of the
    entries.  Which of them the framework keeps is the framework's
    decision; the registry never gains anything else. *)
Theorem createDevices_per_entry (p : Platform) (ds : list DeviceConfig) :
  devices (megaDConfig p) = Some ds -> ds <> [] ->
  result (createDevices p) = Ok tt
  /\ map softwareVersion (registeredBy (events (createDevices p))) = map id ds
  /\ map deviceName (registeredBy (events (createDevices p))) = map name ds
  /\ map uniqueStorageKey (registeredBy (events (createDevices p)))
     = map (fun d => lookupKey (id d)) ds
  /\ (forall e, In e (registered (final (createDevices p))) ->
                In e (registered p) \/ In e (registeredBy (events (createDevices p)))).
Proof.
  intros Hds Hne. rewrite createDevices_run. unfold result, events, final. cbn [fst snd].
  cbn [with_registered registered].
  rewrite createDevicesEvents_registeredBy.
  split; [reflexivity|].
  split; [|split; [|split; [|apply registerAll_In]]];
    unfold lightsToCreate; rewrite Hds; (destruct ds as [|d ds]; [congruence|]);
    rewrite !map_map; reflexivity.
Qed.

Lemma createDevices_per_entry_witness :
  map softwareVersion
      (registeredBy (events (createDevices (Sample.created Sample.host Sample2.twoLights))))
  = [11; 12].
Proof.
  exact (proj1 (proj2 (createDevices_per_entry
                         (Sample.created Sample.host Sample2.twoLights)
                         [ {| id := 11; name := js "Bedroom Light"; room := None |};
                           {| id := 12; name := js "Kitchen Light"; room := None |} ]
                         eq_refl ltac:(discriminate)))).
Defined.

(** X14: [onConfigure] calls the framework's own onConfigure first, then
    logs one line with the uniqueId of each registered device, in registry
    order; it changes nothing and makes no other call. *)
Theorem onConfigure_run (p : Platform) :
  onConfigure p
  = (Ok tt, p,
     SuperOnConfigure
     :: Log Info (js "onConfigure called")
     :: map (fun device => Log Info (js "Configuring device: " ++ uniqueId device))
            (registered p)).
Proof.
  unfold onConfigure. unfold bind at 1. cbn [emit].
  unfold bind at 1. cbn [log_info emit]. unfold bind at 1. cbn [getDevices read].
  rewrite (forOf_stateless (registered p) _
             (fun device => [Log Info (js "Configuring device: " ++ uniqueId device)]))
    by reflexivity.
  reflexivity.
Qed.

(** ** From a state report to the registry *)

Lemma lightsToCreate_lights (p : Platform) (e : Endpoint) :
  In e (lightsToCreate p) ->
  exists deviceId deviceName, e = megaDLight (matterbridge p) deviceId deviceName.
Proof.
  unfold lightsToCreate.
  destruct (devices (megaDConfig p)) as [[|d ds]|].
  - intros [<-|[]]. now exists 11, (js "Bedroom Light").
  - intros H. apply in_map_iff in H as (x & <- & _). now exists (id x), (name x).
  - intros [<-|[]]. now exists 11, (js "Bedroom Light").
Qed.




(** ** Histories *)

Lemma handleMqttMessage_unchanged (topic message : jsstring) (p : Platform) :
  final (handleMqttMessage topic message p) = p.
Proof.
  rewrite handleMqttMessage_decodeInbound. unfold bind. cbn [emit].
  destruct (decodeInbound topic message) as [[deviceId isOn]|]; [|reflexivity].
  destruct (applyState_frame deviceId isOn p) as (_ & Hf & _).
  destruct (applyState deviceId isOn p) as [[r q] evs]. exact Hf.
Qed.

Lemma onConfigure_unchanged (p : Platform) : final (onConfigure p) = p.
Proof.
  unfold onConfigure. unfold bind at 1. cbn [emit].
  unfold bind at 1. cbn [log_info emit]. unfold bind at 1. cbn [getDevices read].
  rewrite (forOf_stateless (registered p) _
             (fun device => [Log Info (js "Configuring device: " ++ uniqueId device)]))
    by reflexivity.
  reflexivity.
Qed.

(** The state a call leaves, call by call. *)
Lemma run_final (c : Call) (p : Platform) :
  truthy (mqtt_broker (megaDConfig p)) = true ->
  final (run c p)
  = match c with
    | CallOnStart _ =>
        match connectError (matterbridge p) (str (mqtt_broker (megaDConfig p))) with
        | Some _ => p
        | None =>
            with_registered
              (with_mqttClient (with_clients p (S (clients p))) (Some (clients p)))
              (registerAll (matterbridge p) (registered p) (lightsToCreate p))
        end
    | CallOnShutdown _ =>
        let q := with_registered
                   match mqttClient p with
                   | Some _ => with_mqttClient p None
                   | None => p
                   end
                   (if shutdownClearsRegistry (matterbridge p) then [] else registered p) in
        match unregisterOnShutdown (config p) with
        | Some true => with_registered q []
        | _ => q
        end
    | _ => p
    end.
Proof.
  intros Hb. destruct c; cbn [run].
  - destruct (connectError (matterbridge p) (str (mqtt_broker (megaDConfig p))))
      as [error|] eqn:Hc.
    + now rewrite (onStart_throws _ _ error Hb Hc).
    + now rewrite (onStart_configured _ _ Hb Hc).
  - apply onConfigure_unchanged.
  - reflexivity.
  - now rewrite onShutdown_run.
  - now rewrite executeCommandHandler_run.
  - now rewrite onConnect_run.
  - reflexivity.
  - apply handleMqttMessage_unchanged.
Qed.

Lemma Invariant_run (mb : Matterbridge) (c : Call) (p : Platform) :
  Invariant mb p ->
  Invariant mb (final (run c p))
  /\ megaDConfig (final (run c p)) = megaDConfig p
  /\ config (final (run c p)) = config p.
Proof.
  intros Hinv. pose proof Hinv as (Hb & Hmb & Hc & Hr). rewrite (run_final c p Hb).
  destruct c; try (split; [assumption | split; reflexivity]).
  - (* onStart *)
    destruct (connectError (matterbridge p) (str (mqtt_broker (megaDConfig p))));
      [split; [assumption | split; reflexivity]|].
    split; [|split; reflexivity]. repeat split; try assumption.
    + cbn. intros c [= <-]. lia.
    + cbn [with_registered registered]. intros e He.
      apply registerAll_In in He as [He|He]; [now apply Hr|].
      apply lightsToCreate_lights in He. now rewrite Hmb in He.
  - (* onShutdown *)
    assert (forall e, In e (if shutdownClearsRegistry (matterbridge p)
                            then [] else registered p) ->
                      exists deviceId deviceName, e = megaDLight mb deviceId deviceName)
      as Hr'.
    { intros e He. destruct (shutdownClearsRegistry (matterbridge p)); [destruct He|auto]. }
    destruct (mqttClient p) as [c|] eqn:E;
      destruct (unregisterOnShutdown (config p)) as [[|]|];
      (split; [|split; reflexivity]); repeat split; try assumption;
      cbn; try discriminate; try tauto; try (rewrite E; assumption).
Qed.

Lemma Invariant_new (mb : Matterbridge) (cfg : MegaDConfig) (p : Platform) :
  fst (MegaDPlatform_new mb cfg) = Ok p -> Invariant mb p.
Proof.
  intros Hnew. pose proof (MegaDPlatform_new_broker _ _ _ Hnew) as Hb.
  apply MegaDPlatform_new_Ok in Hnew as (_ & Hc & Hmb & _ & Hreg & _).
  repeat split; try assumption.
  - intros c H. congruence.
  - rewrite Hreg. intros e [].
Qed.

Lemma runAll_keeps (mb : Matterbridge) (cs : list Call) (p : Platform) :
  Invariant mb p ->
  megaDConfig (runAll cs p) = megaDConfig p
  /\ config (runAll cs p) = config p
  /\ Invariant mb (runAll cs p).
Proof.
  unfold runAll. revert p.
  induction cs as [|c cs IH]; intros p Hinv;
    [split; [reflexivity|split; [reflexivity|assumption]]|].
  cbn [fold_left].
  destruct (Invariant_run mb c p Hinv) as (Hinv' & Hm' & Hc').
  destruct (IH (final (run c p)) Hinv') as (Hm & Hc & Hi).
  rewrite Hm, Hc, Hm', Hc'. split; [reflexivity|split; [reflexivity|assumption]].
Qed.

(** X17: whatever the framework and the MQTT client do after the
    construction (any sequence of life-cycle calls, command handlers and
    listener events), the platform keeps the configuration the constructor
    stored, with its non-empty broker, and the framework's config; its
    client, if any, is one that [mqtt.connect] returned; its registry holds
    only lights built by [createMegaDLight].  So in every such state
    [onStart] connects: the branch of [initializeMqtt] without broker is
    never taken. *)
Theorem history_invariant
    (mb : Matterbridge) (cfg : MegaDConfig) (p : Platform) (cs : list Call)
    (reason : option jsstring) :
  fst (MegaDPlatform_new mb cfg) = Ok p ->
  megaDConfig (runAll cs p) = megaDConfig p
  /\ config (runAll cs p) = cfg
  /\ Invariant mb (runAll cs p)
  /\ In (MqttConnect (clients (runAll cs p))
           (if truthy (mqtt_broker cfg) then str (mqtt_broker cfg) else defaultBroker)
           (connectOptions cfg))
        (events (onStart reason (runAll cs p))).
Proof.
  intros Hnew. pose proof (Invariant_new _ _ _ Hnew) as Hinv.
  destruct (runAll_keeps mb cs p Hinv) as (Hm & Hc & Hi).
  apply MegaDPlatform_new_Ok in Hnew as (_ & _ & _ & Hcfg & _ & Hbroker & Hu & Hpw & _).
  split; [assumption|]. split; [congruence|]. split; [assumption|].
  destruct Hi as (Hb & _).
  assert (connectOptions (megaDConfig (runAll cs p)) = connectOptions cfg) as Hopt
    by (unfold connectOptions; now rewrite Hm, Hu, Hpw).
  assert (str (mqtt_broker (megaDConfig (runAll cs p)))
          = (if truthy (mqtt_broker cfg) then str (mqtt_broker cfg) else defaultBroker))
    as Hstr by now rewrite Hm, Hbroker.
  destruct (connectError (matterbridge (runAll cs p))
              (str (mqtt_broker (megaDConfig (runAll cs p))))) as [error|] eqn:Hce.
  - rewrite (onStart_throws reason _ error Hb Hce). unfold events. cbn [snd].
    rewrite Hstr, Hopt. cbn. tauto.
  - rewrite (onStart_configured reason _ Hb Hce). unfold events. cbn [snd].
    rewrite Hstr, Hopt. cbn. tauto.
Qed.

Lemma history_invariant_witness :
  megaDConfig (runAll [ CallOnStart None; FireConnect; FireMessage (js "alex/11") (js "1");
                        CallCommandHandler (TurnOff 11 (js "Test Light"));
                        CallOnShutdown None; CallOnStart None ]
                 (Sample.created Sample.host Sample.testConfig))
  = megaDConfig (Sample.created Sample.host Sample.testConfig).
Proof.
  exact (proj1 (history_invariant Sample.host Sample.testConfig
                  (Sample.created Sample.host Sample.testConfig)
                  [ CallOnStart None; FireConnect; FireMessage (js "alex/11") (js "1");
                    CallCommandHandler (TurnOff 11 (js "Test Light"));
                    CallOnShutdown None; CallOnStart None ]
                  None eq_refl)).
Defined.

(** X18: after any history, whichever registered device the framework
    runs a command handler of, the command names that device: with a client
    in place, the handler registered as "on" publishes
    ("alex/cmd", "<id>:1") and the one registered as "off"
    ("alex/cmd", "<id>:0"), where <id> is the id the device was created
    with. *)
Theorem registered_handlers_name_their_device
    (mb : Matterbridge) (cfg : MegaDConfig) (p : Platform) (cs : list Call)
    (device : Endpoint) (c : Client) :
  fst (MegaDPlatform_new mb cfg) = Ok p ->
  In device (registered (runAll cs p)) ->
  mqttClient (runAll cs p) = Some c ->
  exists onHandler offHandler,
    commandHandlers device = [(js "on", onHandler); (js "off", offHandler)]
    /\ published (events (executeCommandHandler onHandler (runAll cs p)))
       = [(js "alex/cmd", Number_toString (softwareVersion device) ++ js ":1")]
    /\ published (events (executeCommandHandler offHandler (runAll cs p)))
       = [(js "alex/cmd", Number_toString (softwareVersion device) ++ js ":0")].
Proof.
  intros Hnew Hin Hc. apply Invariant_new in Hnew.
  destruct (runAll_keeps mb cs p Hnew) as (_ & _ & _ & _ & _ & Hlights).
  destruct (Hlights device Hin) as (deviceId & deviceName & ->).
  exists (TurnOn deviceId deviceName), (TurnOff deviceId deviceName).
  rewrite !executeCommandHandler_run, Hc. repeat split; reflexivity.
Qed.

Lemma registered_handlers_name_their_device_witness :
  exists onHandler offHandler,
    commandHandlers (megaDLight Sample.host 12 (js "Kitchen Light"))
    = [(js "on", onHandler); (js "off", offHandler)]
    /\ published (events (executeCommandHandler onHandler
                            (runAll [CallOnStart None; FireConnect]
                               (Sample.created Sample.host Sample2.twoLights))))
       = [(js "alex/cmd", js "12:1")]
    /\ published (events (executeCommandHandler offHandler
                            (runAll [CallOnStart None; FireConnect]
                               (Sample.created Sample.host Sample2.twoLights))))
       = [(js "alex/cmd", js "12:0")].
Proof.
  refine (registered_handlers_name_their_device Sample.host Sample2.twoLights
            (Sample.created Sample.host Sample2.twoLights)
            [CallOnStart None; FireConnect]
            (megaDLight Sample.host 12 (js "Kitchen Light")) 0%nat eq_refl _ eq_refl).
  right. left. reflexivity.
Defined.

(** ** A host that refuses and clears

    On [Sample3.strictHost] a second [onStart] leaves one light in the
    registry, and [onShutdown] leaves none although unregisterOnShutdown is
    false. *)

Example strictHost_second_start :
  map deviceName
      (registered (final (onStart None (Sample.started Sample3.strictHost
                                          Sample.testConfig))))
  = [js "Test Light"].
Proof. vm_compute. reflexivity. Qed.

Example strictHost_shutdown :
  registered (final (onShutdown None (Sample.started Sample3.strictHost Sample.testConfig)))
  = [].
Proof. vm_compute. reflexivity. Qed.
